(** * The batch SQL runner of hr_cli.py ([query run-all])

    A shallow embedding of [run_all_queries] (src/hr_cli.py, lines 446-621)
    and of [get_db_connection] (lines 20-25): the line-oriented statement
    splitter, the sequential execution loop with its two nested [try]
    blocks, the summary counters, the optional report file and the
    handling of the store connection.

    Python [str] values are modelled as [string]; a character stands for
    the code point of the same number, so the model covers texts whose
    code points are below 256.  The store ([sqlite3] cursor), [tabulate]
    and the file system are external: the store is a parameter of the
    development, console lines and file writes are kept as structured
    events, one constructor per [click.echo] / [f.write] call site. *)

From Stdlib Require Import String Ascii List Bool Arith ZArith Lia.
Import ListNotations.
Local Open Scope list_scope.
Local Open Scope string_scope.

(** ** Python string primitives used by the splitter *)

Module PyStr.

(** [str.isspace] on one character, for code points below 256:
    TAB..CR, FS..US, SPACE, NEL (0x85) and NBSP (0xA0). *)
Definition isspace (c : ascii) : bool :=
  let n := nat_of_ascii c in
  ((9 <=? n)%nat && (n <=? 13)%nat) || ((28 <=? n)%nat && (n <=? 32)%nat)
  || (n =? 133)%nat || (n =? 160)%nat.

(** [s.lstrip()] *)
Fixpoint lstrip (s : string) : string :=
  match s with
  | EmptyString => EmptyString
  | String c s' => if isspace c then lstrip s' else s
  end.

(** [s.rstrip()] *)
Fixpoint rstrip (s : string) : string :=
  match s with
  | EmptyString => EmptyString
  | String c s' =>
      match rstrip s' with
      | EmptyString => if isspace c then EmptyString else String c EmptyString
      | r => String c r
      end
  end.

(** [s.strip()] *)
Definition strip (s : string) : string := lstrip (rstrip s).

(** [not s]: truth value of a string is its non-emptiness. *)
Definition is_empty (s : string) : bool :=
  match s with EmptyString => true | String _ _ => false end.

(** [s.startswith(p)] *)
Fixpoint startswith (s p : string) : bool :=
  match p with
  | EmptyString => true
  | String a p' =>
      match s with
      | EmptyString => false
      | String b s' => Ascii.eqb b a && startswith s' p'
      end
  end.

(** [s.endswith(p)] *)
Fixpoint endswith (s p : string) : bool :=
  (s =? p) ||
  match s with
  | EmptyString => false
  | String _ s' => endswith s' p
  end.

(** [s[:n]] *)
Fixpoint take (n : nat) (s : string) : string :=
  match n, s with
  | S n', String c s' => String c (take n' s')
  | _, _ => EmptyString
  end.

Definition newline : ascii := ascii_of_nat 10.
Definition nl : string := String newline EmptyString.

(** [s.split('\n')]: always at least one piece. *)
Fixpoint split_newline (s : string) : list string :=
  match s with
  | EmptyString => [EmptyString]
  | String c s' =>
      if Ascii.eqb c newline then EmptyString :: split_newline s'
      else match split_newline s' with
           | l :: ls => String c l :: ls
           | [] => [String c EmptyString]
           end
  end.

(** A string with at least one non-whitespace character. *)
Fixpoint has_nonspace (s : string) : bool :=
  match s with
  | EmptyString => false
  | String c s' => negb (isspace c) || has_nonspace s'
  end.

(** [s] contains a newline character. *)
Fixpoint has_newline (s : string) : bool :=
  match s with
  | EmptyString => false
  | String c s' => Ascii.eqb c newline || has_newline s'
  end.

End PyStr.

(** ** Statement splitter (hr_cli.py lines 470-500) *)

Module Splitter.
Import PyStr.

(** The three loop variables [queries], [current_query], [in_comment]. *)
Record state : Type := mkState {
  queries : list string;
  current_query : string;
  in_comment : bool
}.

Definition init : state :=
  {| queries := []; current_query := ""; in_comment := false |}.

(** [in_comment = b] *)
Definition set_in_comment (st : state) (b : bool) : state :=
  {| queries := queries st; current_query := current_query st;
     in_comment := b |}.

(** One iteration of [for line in content.split('\n')]. *)
Definition step (st : state) (raw : string) : state :=
  let line := strip raw in
  if is_empty line || startswith line "--" then st
  else if startswith line "/*" then set_in_comment st true
  else if endswith line "*/" then set_in_comment st false
  else if in_comment st then st
  else
    let cq := current_query st ++ line ++ " " in
    if endswith line ";" then
      {| queries := (queries st ++ [strip cq])%list; current_query := "";
         in_comment := in_comment st |}
    else
      {| queries := queries st; current_query := cq;
         in_comment := in_comment st |}.

Definition run_lines (st : state) (lines : list string) : state :=
  fold_left step lines st.

(** The [if current_query.strip(): queries.append(...)] after the loop. *)
Definition flush (st : state) : list string :=
  if is_empty (strip (current_query st)) then queries st
  else (queries st ++ [strip (current_query st)])%list.

Definition split_lines (lines : list string) : list string :=
  flush (run_lines init lines).

(** The value of [queries] at line 502, from the text of the script. *)
Definition split_queries (content : string) : list string :=
  split_lines (split_newline content).

(** [query.strip()] is a non-empty string (the test of line 510 fails). *)
Definition nonblank (q : string) : Prop := is_empty (strip q) = false.

End Splitter.

(** ** Scripts of the scenarios *)

Module Scripts.
Import PyStr.

Definition script_roundtrip : string :=
  "-- comment" ++ nl ++ "SELECT 1;" ++ nl ++ "/* skip" ++ nl ++
  "this */" ++ nl ++ "SELECT 2;" ++ nl.

Definition script_bad_middle : string :=
  "SELECT 1;" ++ nl ++ "SELEC 2;" ++ nl ++ "SELECT 2;" ++ nl.

Definition script_without_middle : string :=
  "SELECT 1;" ++ nl ++ "SELECT 2;" ++ nl.

End Scripts.

(** ** The batch run (hr_cli.py lines 449-621) *)

Module Runner.
Import PyStr.

(** The exceptions the two [try] blocks tell apart: [sqlite3.OperationalError]
    and every other subclass of [Exception].  The string is [str(e)]. *)
Inductive exc : Type :=
| OperationalError (msg : string)
| OtherException (msg : string).

(** [str(e)] *)
Definition exc_message (e : exc) : string :=
  match e with OperationalError m | OtherException m => m end.

(** The value stored under ['rows']: [len(results)], ['N/A'] or ['ERROR']. *)
Inductive rows_field : Type :=
| RowsCount (n : nat)
| RowsNA
| RowsERROR.

(** One dictionary appended to [all_results]; ['error'] is present only in
    the two [except] branches of the outer [try]. *)
Record result : Type := mkResult {
  query_num : nat;
  query : string;
  rows : rows_field;
  columns : list string;
  error : option string
}.

(** [r.get('rows') == 'ERROR'] *)
Definition is_error (r : result) : bool :=
  match rows r with RowsERROR => true | _ => false end.

(** [query[:100] + '...' if len(query) > 100 else query] (lines 543, 551,
    561, 570, 579) *)
Definition truncated (q : string) : string :=
  if (100 <? String.length q)%nat then take 100 q ++ "..." else q.

(** [f"{query[:100]}{'...' if len(query) > 100 else ''}"] (line 516) *)
Definition shown_text (q : string) : string :=
  take 100 q ++ (if (100 <? String.length q)%nat then "..." else "").

(** [enumerate(l, start)] *)
Fixpoint enumerate {A : Type} (start : nat) (l : list A) : list (nat * A) :=
  match l with
  | [] => []
  | x :: l' => (start, x) :: enumerate (S start) l'
  end.

(** The lines written to the report file (lines 602-615), one constructor
    per [f.write]. *)
Inductive file_write : Type :=
| WTitle                      (* "Query Execution Results\n" *)
| WRule30                     (* "=" * 30 + "\n\n" *)
| WQuery (n : nat)            (* f"Query {result['query_num']}:\n" *)
| WSql (q : string)           (* f"SQL: {result['query']}\n" *)
| WStatus (success : bool)    (* f"Status: {'SUCCESS' if ... else 'FAILED'}\n" *)
| WResults (r : rows_field)   (* f"Results: {result['rows']} rows\n" *)
| WColumns (cols : list string) (* f"Columns: {', '.join(...)}\n" *)
| WError (msg : string)       (* f"Error: {result.get('error', 'Unknown error')}\n" *)
| WRule40.                    (* "-" * 40 + "\n\n" *)

Definition report_block (r : result) : list file_write :=
  ([WQuery (query_num r); WSql (query r); WStatus (negb (is_error r))] ++
   (if negb (is_error r) then
      WResults (rows r) ::
      (match columns r with [] => [] | _ :: _ => [WColumns (columns r)] end)
    else
      [WError (match error r with Some m => m | None => "Unknown error" end)])
   ++ [WRule40])%list.

Definition report (all_results : list result) : list file_write :=
  ([WTitle; WRule30] ++ flat_map report_block all_results)%list.

(** [sum(1 for r in all_results if r.get('rows') != 'ERROR')] and its dual
    (lines 591-592). *)
Definition count_successful (all_results : list result) : nat :=
  List.length (filter (fun r => negb (is_error r)) all_results).
Definition count_failed (all_results : list result) : nat :=
  List.length (filter is_error all_results).

(** State of the connection object [conn]: not created, returned by
    [sqlite3.connect] and not yet closed, or closed by [conn.close()]. *)
Inductive conn_state : Type := NotAcquired | Open | Closed.

(** What [os.path.exists('queries.sql')] and the [open]/[read] at lines
    463-468 find. *)
Inductive script_file : Type :=
| ScriptAbsent
| ScriptUnreadable (e : string)
| ScriptText (content : string).

Section WithStore.

(** A row of a result set, the state of the store behind the cursor, and
    the three cursor operations the loop uses.  [cursor_description] gives
    [[d[0] for d in cursor.description]]. *)
Context {Row Store : Type}.
Variable cursor_execute : Store -> string -> Store * option exc.
Variable cursor_fetchall : Store -> Store * (exc + list Row).
Variable cursor_description : Store -> list string.

(** [open(output_file, 'w')] followed by the writes: [None] when the block
    completes, [Some msg] when it raises, [msg] being [str(e)]. *)
Variable write_report : string -> list file_write -> option string.

(** Console lines, one constructor per [click.echo] call site. *)
Inductive echo : Type :=
| EchoDbNotFound                      (* line 23 *)
| EchoScriptNotFound                  (* line 456 *)
| EchoBanner                          (* line 459 *)
| EchoRule60                          (* line 460 *)
| EchoReadError (e : string)          (* line 467 *)
| EchoFound (n : nat)                 (* line 502: "Found {len(queries)} queries to execute" *)
| EchoBlank                           (* lines 503, 585 *)
| EchoQueryHeader (i : nat)           (* line 514: "Query {i}:" *)
| EchoQueryText (s : string)          (* line 516 *)
| EchoResults (n : nat)               (* line 529: "Results: {len(results)} rows" *)
| EchoTable (rs : list Row) (headers : list string) (* lines 532-536 *)
| EchoMore (n : nat)                  (* line 537: "... and {len(results) - 3} more rows" *)
| EchoRowsReturned (n : nat)          (* line 539: "{len(results)} rows returned" *)
| EchoNoResults                       (* line 548 *)
| EchoExecuted                        (* line 558 *)
| EchoError (msg : string)            (* line 567: "Error: {e}" *)
| EchoUnexpected (msg : string)       (* line 576: "Unexpected error: {e}" *)
| EchoSummaryHeader                   (* line 588 *)
| EchoRule40                          (* line 589 *)
| EchoSuccessful (n : nat)            (* line 594 *)
| EchoFailed (n : nat)                (* line 595 *)
| EchoTotal (n : nat)                 (* line 596 *)
| EchoSaved (path : string)           (* line 617 *)
| EchoSaveError (msg : string).       (* line 619 *)

(** Everything the run does that is visible outside it, in program order. *)
Inductive event : Type :=
| Say (e : echo)                      (* click.echo *)
| Connect                             (* sqlite3.connect(DB_FILE) *)
| Execute (q : string)                (* cursor.execute(query) *)
| FetchAll                            (* cursor.fetchall() *)
| WriteFile (path : string) (content : list file_write)
| Close.                              (* conn.close() *)

(** Loop variables of the [for] at line 509, with the trace so far. *)
Record loop_state : Type := mkLoop {
  store : Store;
  trace : list event;
  all_results : list result
}.

Definition emit (st : loop_state) (evs : list event) : loop_state :=
  {| store := store st; trace := (trace st ++ evs)%list;
     all_results := all_results st |}.

Definition with_store (st : loop_state) (s : Store) : loop_state :=
  {| store := s; trace := trace st; all_results := all_results st |}.

Definition append_result (st : loop_state) (r : result) : loop_state :=
  {| store := store st; trace := trace st;
     all_results := (all_results st ++ [r])%list |}.

(** Lines 528-539: what is echoed for a non-empty result set. *)
Definition echo_rows (verbose : bool) (results : list Row)
    (column_names : list string) : list event :=
  if verbose then
    (Say (EchoResults (List.length results)) ::
     (if (List.length results <=? 5)%nat then
        [Say (EchoTable results column_names)]
      else
        [Say (EchoTable (firstn 3 results) column_names);
         Say (EchoMore (List.length results - 3))]))%list
  else [Say (EchoRowsReturned (List.length results))].

(** The [except] branches at lines 566-583. *)
Definition on_error (st : loop_state) (i : nat) (q : string) (e : exc)
    : loop_state :=
  match e with
  | OperationalError m =>
      append_result (emit st [Say (EchoError m)])
        (mkResult i (truncated q) RowsERROR [] (Some m))
  | OtherException m =>
      append_result (emit st [Say (EchoUnexpected m)])
        (mkResult i (truncated q) RowsERROR [] (Some m))
  end.

(** Lines 522-564: the inner [try] with its [except sqlite3.OperationalError];
    any other exception goes on to the outer handlers. *)
Definition fetch_results (verbose : bool) (st : loop_state) (i : nat)
    (q : string) : loop_state :=
  let (s', f) := cursor_fetchall (store st) in
  let st := emit (with_store st s') [FetchAll] in
  match f with
  | inr results =>
      match results with
      | _ :: _ =>
          let column_names := cursor_description s' in
          append_result (emit st (echo_rows verbose results column_names))
            (mkResult i (truncated q) (RowsCount (List.length results))
               column_names None)
      | [] =>
          append_result (emit st [Say EchoNoResults])
            (mkResult i (truncated q) (RowsCount 0) [] None)
      end
  | inl (OperationalError _) =>
      append_result (emit st [Say EchoExecuted])
        (mkResult i (truncated q) RowsNA [] None)
  | inl (OtherException m) => on_error st i q (OtherException m)
  end.

(** Body of the loop at line 509, lines 510-585. *)
Definition run_query (verbose : bool) (st : loop_state) (iq : nat * string)
    : loop_state :=
  let (i, q) := iq in
  if is_empty (strip q) then st
  else
    let st := emit st (Say (EchoQueryHeader i) ::
                       (if verbose then [Say (EchoQueryText (shown_text q))]
                        else [])) in
    let (s', r) := cursor_execute (store st) q in
    let st := emit (with_store st s') [Execute q] in
    let st :=
      match r with
      | None => fetch_results verbose st i q
      | Some e => on_error st i q e
      end in
    emit st [Say EchoBlank].

Definition run_loop (verbose : bool) (st : loop_state)
    (queries : list string) : loop_state :=
  fold_left (run_query verbose) (enumerate 1 queries) st.

(** [if output_file:] is false for [None] and for the empty string. *)
Definition output_requested (output_file : option string) : option string :=
  match output_file with
  | Some p => if is_empty p then None else Some p
  | None => None
  end.

(** Lines 599-619. *)
Definition save_results (output_file : option string)
    (results : list result) : list event :=
  match output_requested output_file with
  | None => []
  | Some p =>
      WriteFile p (report results) ::
      match write_report p (report results) with
      | None => [Say (EchoSaved p)]
      | Some e => [Say (EchoSaveError e)]
      end
  end.

(** What the function leaves behind: the events in order, the store, and,
    when the loop was reached, the locals [queries], [all_results],
    [successful] and [failed]. *)
Record summary : Type := mkSummary {
  sum_queries : list string;
  sum_results : list result;
  successful : nat;
  failed : nat
}.

Definition total (s : summary) : nat := List.length (sum_queries s).

Record outcome : Type := mkOutcome {
  events : list event;
  final_store : Store;
  run_summary : option summary
}.

(** [run_all_queries(output_file, verbose)], with [db_exists] the answer of
    [os.path.exists(DB_FILE)] in [get_db_connection], [script] the state of
    queries.sql and [s0] the store behind the connection. *)
Definition run_all_queries (db_exists : bool) (script : script_file)
    (s0 : Store) (output_file : option string) (verbose : bool) : outcome :=
  if negb db_exists then
    mkOutcome [Say EchoDbNotFound] s0 None
  else
    match script with
    | ScriptAbsent =>
        mkOutcome [Connect; Say EchoScriptNotFound] s0 None
    | ScriptUnreadable e =>
        mkOutcome [Connect; Say EchoBanner; Say EchoRule60;
                   Say (EchoReadError e)] s0 None
    | ScriptText content =>
        let queries := Splitter.split_queries content in
        let st0 := mkLoop s0 [Connect; Say EchoBanner; Say EchoRule60;
                              Say (EchoFound (List.length queries));
                              Say EchoBlank] [] in
        let st := run_loop verbose st0 queries in
        let ok := count_successful (all_results st) in
        let ko := count_failed (all_results st) in
        mkOutcome
          (trace st ++
           [Say EchoSummaryHeader; Say EchoRule40; Say (EchoSuccessful ok);
            Say (EchoFailed ko); Say (EchoTotal (List.length queries))] ++
           save_results output_file (all_results st) ++ [Close])%list
          (store st)
          (Some (mkSummary queries (all_results st) ok ko))
    end.

(** State of the connection after a sequence of events. *)
Definition conn_step (c : conn_state) (ev : event) : conn_state :=
  match ev with
  | Connect => Open
  | Close => Closed
  | _ => c
  end.

Definition conn_after (tr : list event) : conn_state :=
  fold_left conn_step tr NotAcquired.

(** Projections of a trace. *)
Definition console (tr : list event) : list echo :=
  flat_map (fun ev => match ev with Say e => [e] | _ => [] end) tr.

Definition submitted (tr : list event) : list string :=
  flat_map (fun ev => match ev with Execute q => [q] | _ => [] end) tr.

(** The rows displayed by the [tabulate] calls of a trace. *)
Definition table_rows (tr : list event) : list Row :=
  flat_map (fun ev => match ev with Say (EchoTable rs _) => rs | _ => [] end)
    tr.

(** What one iteration of the loop adds, started from store [s]. *)
Definition statement_run (verbose : bool) (s : Store) (i : nat) (q : string)
    : loop_state :=
  run_query verbose (mkLoop s [] []) (i, q).

(** [st] extended by what [r] did: the trace and the results of [r] come
    after those of [st]. *)
Definition extend (st r : loop_state) : loop_state :=
  mkLoop (store r) (trace st ++ trace r)%list
    (all_results st ++ all_results r)%list.

(** The store after statement [q] has been processed from store [s]. *)
Definition store_after (s : Store) (q : string) : Store :=
  store (statement_run false s 0 q).

(** The outer [try] for [q] reaches one of its [except] branches: either
    [cursor.execute] raises, or [cursor.fetchall] raises something other
    than [sqlite3.OperationalError]. *)
Definition raises (s : Store) (q : string) : option exc :=
  match cursor_execute s q with
  | (_, Some e) => Some e
  | (s', None) =>
      match cursor_fetchall s' with
      | (_, inl (OtherException m)) => Some (OtherException m)
      | _ => None
      end
  end.

(** The events of the loop over [qs], numbered from [k], from store [s]:
    the iterations one after the other, each from the store the previous
    one left. *)
Fixpoint blocks (verbose : bool) (s : Store) (k : nat) (qs : list string)
    : list event :=
  match qs with
  | [] => []
  | q :: qs' =>
      (trace (statement_run verbose s k q) ++
       blocks verbose (store_after s q) (S k) qs')%list
  end.

(** The results the loop over [qs] records, in the same way. *)
Fixpoint recorded (verbose : bool) (s : Store) (k : nat) (qs : list string)
    : list result :=
  match qs with
  | [] => []
  | q :: qs' =>
      (all_results (statement_run verbose s k q) ++
       recorded verbose (store_after s q) (S k) qs')%list
  end.

(** The first lines of the block of statement [i] (lines 514-516). *)
Definition block_head (verbose : bool) (i : nat) (q : string) : list event :=
  Say (EchoQueryHeader i) ::
  (if verbose then [Say (EchoQueryText (shown_text q))] else []).

(** The line echoed by the [except] branches (lines 567, 576). *)
Definition echo_exc (e : exc) : echo :=
  match e with
  | OperationalError m => EchoError m
  | OtherException m => EchoUnexpected m
  end.

(** The part of a result that describes the outcome of the statement. *)
Definition outcome_of (r : result) : rows_field * list string * option string :=
  (rows r, columns r, error r).

End WithStore.

End Runner.

(** ** A small store to run the model on

    Rows are lists of numbers; the state of the store is the result set
    waiting behind the cursor.  It knows four kinds of statement and rejects
    every other text with a [sqlite3.OperationalError] that quotes it, and
    leaves the waiting result set as it was. *)

Module ToyStore.
Import PyStr Runner.

Definition Row : Type := list nat.
Definition Store : Type := list Row.

Definition cursor_execute (s : Store) (q : string) : Store * option exc :=
  if q =? "SELECT 1;" then ([[1]], None)
  else if q =? "SELECT 2;" then ([[2]], None)
  else if q =? "SELECT n FROM seven;" then
    (map (fun n => [n]) (seq 1 7), None)
  else if startswith q "INSERT" then ([], None)
  else (s, Some (OperationalError ("syntax error in: " ++ q))).

Definition cursor_fetchall (s : Store) : Store * (exc + list Row) :=
  ([], inr s).

Definition cursor_description (s : Store) : list string := ["n"].

(** Writing below [/missing/] fails, anything else succeeds. *)
Definition write_report (path : string) (content : list file_write)
    : option string :=
  if startswith path "/missing/" then
    Some "[Errno 2] No such file or directory"
  else None.

Definition run (script : script_file) (output_file : option string)
    (verbose : bool) : outcome :=
  run_all_queries cursor_execute cursor_fetchall cursor_description
    write_report true script [] output_file verbose.

Definition one (verbose : bool) (s : Store) (i : nat) (q : string)
    : loop_state :=
  statement_run cursor_execute cursor_fetchall cursor_description
    verbose s i q.

(** A statement of more than 100 characters that the store rejects. *)
Definition long_statement : string :=
  "SELEC employee_id, first_name, last_name, email, phone, hire_date, " ++
  "salary, department_id FROM Employees WHERE salary > 50000;".

(** A rejected statement of [n] characters. *)
Fixpoint junk (n : nat) : string :=
  match n with
  | O => EmptyString
  | S n' => String "X" (junk n')
  end.

End ToyStore.

(** ** Kinds of script lines

    The tests of lines 479-490 and 495 as predicates on a raw line, and the
    text the loop accumulates for a run of lines. *)

Module Lines.
Import PyStr.

(** The trimmed line ends with the terminator (line 495). *)
Definition terminated (raw : string) : bool := endswith (strip raw) ";".

(** The line falls through the tests of lines 479, 483 and 486: it is not
    blank, does not start with [--] or [/*] and does not end with [*/]. *)
Definition plain (raw : string) : bool :=
  let line := strip raw in
  negb (is_empty line) && negb (startswith line "--") &&
  negb (startswith line "/*") && negb (endswith line "*/").

(** The line is skipped by the test of line 479. *)
Definition skipped (raw : string) : bool :=
  is_empty (strip raw) || startswith (strip raw) "--".

(** What [current_query += line + " "] adds for the lines [ls]. *)
Fixpoint trail (ls : list string) : string :=
  match ls with
  | [] => EmptyString
  | l :: ls' => strip l ++ " " ++ trail ls'
  end.

(** Number of lines whose trimmed text ends with [;]. *)
Definition count_terminated (ls : list string) : nat :=
  List.length (filter terminated ls).

End Lines.

(** ** Readings of a trace and of a report *)

Module Readings.
Import PyStr Runner.

(** The files a trace writes: path and content of each [WriteFile]. *)
Definition written {Row : Type} (tr : list (@event Row))
    : list (string * list file_write) :=
  flat_map (fun ev => match ev with
                      | WriteFile p c => [(p, c)]
                      | _ => []
                      end) tr.




(** Use of the connection object along a trace: [sqlite3.connect] once,
    cursor calls only while it is open, [close] once on an open connection.
    [None] when an event breaks this. *)
Definition protocol_step {Row : Type} (c : option conn_state)
    (ev : @event Row) : option conn_state :=
  match c, ev with
  | None, _ => None
  | Some NotAcquired, Connect => Some Open
  | Some _, Connect => None
  | Some Open, (Execute _ | FetchAll) => Some Open
  | Some _, (Execute _ | FetchAll) => None
  | Some Open, Close => Some Closed
  | Some _, Close => None
  | Some s, (Say _ | WriteFile _ _) => Some s
  end.

Definition protocol {Row : Type} (tr : list (@event Row))
    : option conn_state :=
  fold_left protocol_step tr (Some NotAcquired).


(** The events an iteration of the loop can produce. *)
Definition is_statement_event {Row : Type} (ev : @event Row) : bool :=
  match ev with
  | Say _ | Execute _ | FetchAll => true
  | _ => false
  end.

End Readings.

(** ** The [status] command (hr_cli.py lines 708-754) *)

Module Status.
Import PyStr Runner.

(** Console lines of [system_status], one constructor per [click.echo]. *)
Inductive line : Type :=
| StatusTitle                         (* line 711 *)
| Rule50                              (* line 712 *)
| DbFound                             (* line 717: "Database: {DB_FILE}" *)
| DbSize (bytes : nat)                (* line 718: "Size: {db_size:,} bytes" *)
| DbNotFound                          (* line 23, in [get_db_connection] *)
| ContentsHeader                      (* line 730 *)
| TableCount (table : string) (count : Z) (* line 735: "{table}: {count:,} records" *)
| TableError (table : string)         (* line 737: "{table}: Error" *)
| DbMissing                           (* line 741 *)
| RunInit                             (* line 742 *)
| CommandsHeader                      (* line 744 *)
| CommandLine (text : string).        (* lines 745-754 *)

Inductive event : Type :=
| Say (l : line)
| Connect                             (* sqlite3.connect(DB_FILE) *)
| Execute (q : string)                (* cursor.execute(...) *)
| FetchOne                            (* cursor.fetchone() *)
| Close.                              (* conn.close() *)

(** The list [tables] of lines 726-728. *)
Definition tables : list string :=
  ["JobTitles"; "Departments"; "Employees"; "Projects"; "EmployeeProjects";
   "Attendance"; "LeaveRequests"; "PerformanceReviews"; "Payroll"].

(** The texts of lines 745-754. *)
Definition commands : list string :=
  ["   employee list    - List all employees";
   "   employee show    - Show employee details";
   "   department list  - List all departments";
   "   project list     - List all projects";
   "   query dashboard  - Show system dashboard";
   "   query top-salaries - Top salaries by department";
   "   query multi-projects - Employees on multiple projects";
   "   query attendance-report - Monthly attendance report";
   "   query payroll-cost - Payroll cost by department";
   "   query run-all     - Execute all queries from queries.sql"].

(** [f"SELECT COUNT(*) FROM {table}"] *)
Definition count_query (table : string) : string :=
  "SELECT COUNT(*) FROM " ++ table.

Section WithStore.

(** The store and cursor as in the batch run; [cursor_fetchone] gives the
    next row or [None]; [first_count row] is [row[0]] when it is a number
    that [{count:,}] can format, and [None] when indexing or formatting
    raises. *)
Context {Row Store : Type}.
Variable cursor_execute : Store -> string -> Store * option exc.
Variable cursor_fetchone : Store -> Store * (exc + option Row).
Variable first_count : Row -> option Z.

(** Body of the loop at line 731: the [try] with its bare [except]. *)
Definition count_table (st : Store * list event) (table : string)
    : Store * list event :=
  let (s, tr) := st in
  let q := count_query table in
  let (s1, r) := cursor_execute s q in
  match r with
  | Some _ => (s1, (tr ++ [Execute q; Say (TableError table)])%list)
  | None =>
      let (s2, f) := cursor_fetchone s1 in
      match f with
      | inr (Some row) =>
          match first_count row with
          | Some n =>
              (s2, (tr ++ [Execute q; FetchOne; Say (TableCount table n)])%list)
          | None =>
              (s2, (tr ++ [Execute q; FetchOne; Say (TableError table)])%list)
          end
      | _ => (s2, (tr ++ [Execute q; FetchOne; Say (TableError table)])%list)
      end
  end.

Definition count_tables (st : Store * list event) (ts : list string)
    : Store * list event :=
  fold_left count_table ts st.

(** [system_status()]: [exists_status] is the answer of [os.path.exists] at
    line 716, [db_size] that of [os.path.getsize], [exists_conn] the answer
    of [os.path.exists] inside [get_db_connection]. *)
Definition system_status (exists_status : bool) (db_size : nat)
    (exists_conn : bool) (s0 : Store) : Store * list event :=
  let head := [Say StatusTitle; Say Rule50] in
  let tail := Say CommandsHeader :: map (fun c => Say (CommandLine c)) commands in
  if exists_status then
    let found := (head ++ [Say DbFound; Say (DbSize db_size)])%list in
    if exists_conn then
      let (s, tr) :=
        count_tables (s0, (found ++ [Connect; Say ContentsHeader])%list)
          tables in
      (s, (tr ++ [Close] ++ tail)%list)
    else (s0, (found ++ [Say DbNotFound] ++ tail)%list)
  else (s0, (head ++ [Say DbMissing; Say RunInit] ++ tail)%list).

(** Readings of a trace. *)
Definition console (tr : list event) : list line :=
  flat_map (fun ev => match ev with Say l => [l] | _ => [] end) tr.

Definition executed (tr : list event) : list string :=
  flat_map (fun ev => match ev with Execute q => [q] | _ => [] end) tr.

(** The tables named by the per-table lines of a trace. *)
Definition table_lines (tr : list event) : list string :=
  flat_map (fun ev => match ev with
                      | Say (TableCount t _) | Say (TableError t) => [t]
                      | _ => []
                      end) tr.

(** Use of the connection, as for the batch run. *)
Definition protocol_step (c : option conn_state) (ev : event)
    : option conn_state :=
  match c, ev with
  | None, _ => None
  | Some NotAcquired, Connect => Some Open
  | Some _, Connect => None
  | Some Open, (Execute _ | FetchOne) => Some Open
  | Some _, (Execute _ | FetchOne) => None
  | Some Open, Close => Some Closed
  | Some _, Close => None
  | Some s, Say _ => Some s
  end.

Definition protocol (tr : list event) : option conn_state :=
  fold_left protocol_step tr (Some NotAcquired).

End WithStore.

End Status.

(** ** The query of [employee list] (hr_cli.py lines 72-94) *)

Module ListEmployees.
Import PyStr.

(** A value bound to a [?] placeholder: the [LIKE] pattern is a string,
    the limit an integer. *)
Inductive param : Type :=
| PText (s : string)
| PInt (n : Z).

(** The triple-quoted text of lines 72-86. *)
Definition base_query : string :=
  nl ++
  "        SELECT " ++ nl ++
  "            e.EmployeeID," ++ nl ++
  "            e.FirstName," ++ nl ++
  "            e.LastName," ++ nl ++
  "            e.Email," ++ nl ++
  "            jt.JobTitleName," ++ nl ++
  "            d.DepartmentName," ++ nl ++
  "            e.Salary," ++ nl ++
  "            e.HireDate" ++ nl ++
  "        FROM Employees e" ++ nl ++
  "        JOIN JobTitles jt ON e.JobTitleID = jt.JobTitleID" ++ nl ++
  "        JOIN Departments d ON e.DepartmentID = d.DepartmentID" ++ nl ++
  "        WHERE 1=1" ++ nl ++
  "    ".

Definition like_clause : string := " AND d.DepartmentName LIKE ?".
Definition order_clause : string := " ORDER BY e.LastName, e.FirstName LIMIT ?".

(** [query] and [params] as they are passed to [cursor.execute] at line 97;
    [department] is [None] when the option is not given, and
    [if department:] is false for the empty string too. *)
Definition list_employees_query (department : option string) (limit : Z)
    : string * list param :=
  let (query, params) :=
    match department with
    | Some d =>
        if is_empty d then (base_query, [])
        else (base_query ++ like_clause, [PText ("%" ++ d ++ "%")])
    | None => (base_query, [])
    end in
  (query ++ order_clause, (params ++ [PInt limit])%list).

(** Number of [?] placeholders in a statement text. *)
Fixpoint placeholders (q : string) : nat :=
  match q with
  | EmptyString => 0
  | String c q' => (if Ascii.eqb c "?" then 1 else 0) + placeholders q'
  end.

End ListEmployees.

(** ** [init_database] (init_db.py lines 11-58) *)

Module InitDb.
Import PyStr.

(** What [open(name, 'r')] and [read()] find: [FileNotFoundError], another
    exception with its text, or the content. *)
Inductive file_state : Type :=
| FileMissing
| FileUnreadable (e : string)
| FileText (text : string).

(** The [print] calls, in the order of the source. *)
Inductive message : Type :=
| Removed                             (* line 17 *)
| Creating                            (* line 23 *)
| SchemaCreated                       (* line 30 *)
| SchemaMissing                       (* line 32 *)
| SchemaError (e : string)            (* line 35 *)
| Loading                             (* line 38 *)
| DataLoaded                          (* line 45 *)
| DataMissing                         (* line 47 *)
| DataError (e : string)              (* line 50 *)
| Completed.                          (* line 57 *)

Inductive event : Type :=
| Print (m : message)
| RemoveDb                            (* os.remove('hr_database.db') *)
| Connect                             (* sqlite3.connect('hr_database.db') *)
| ExecuteScript (sql : string)        (* cursor.executescript(...) *)
| Commit                              (* conn.commit() *)
| Close.                              (* conn.close() *)

Section WithStore.

(** [fresh] is the empty database [sqlite3.connect] creates once the old
    file is gone; [cursor_executescript] gives the new store and the text
    of the exception, if one is raised. *)
Context {Store : Type}.
Variable fresh : Store.
Variable cursor_executescript : Store -> string -> Store * option string.

(** One [try] block (lines 26-36 for schema.sql, lines 41-51 for data.sql):
    the events, the store, and whether the function goes on. *)
Definition load_script (file : file_state) (ok missing : message)
    (failed : string -> message) (s : Store) : Store * list event * bool :=
  match file with
  | FileMissing => (s, [Print missing], false)
  | FileUnreadable e => (s, [Print (failed e)], false)
  | FileText text =>
      match cursor_executescript s text with
      | (s', None) => (s', [ExecuteScript text; Print ok], true)
      | (s', Some e) => (s', [ExecuteScript text; Print (failed e)], false)
      end
  end.

(** [init_database()]: the value returned, the store and the events. *)
Definition init_database (db_exists : bool) (schema data : file_state)
    : bool * Store * list event :=
  let tr0 := ((if db_exists then [RemoveDb; Print Removed] else []) ++
              [Connect; Print Creating])%list in
  match load_script schema SchemaCreated SchemaMissing SchemaError fresh with
  | (s1, ev1, false) => (false, s1, (tr0 ++ ev1)%list)
  | (s1, ev1, true) =>
      match load_script data DataLoaded DataMissing DataError s1 with
      | (s2, ev2, false) =>
          (false, s2, (tr0 ++ ev1 ++ [Print Loading] ++ ev2)%list)
      | (s2, ev2, true) =>
          (true, s2,
           (tr0 ++ ev1 ++ [Print Loading] ++ ev2 ++
            [Commit; Close; Print Completed])%list)
      end
  end.



End WithStore.

End InitDb.

(** ** Small stores for the other commands *)

Module ToyStatus.
Import PyStr Runner.

(** The store holds the count waiting behind the cursor; every table but
    [Payroll] exists and has as many records as its query has characters. *)
Definition Row : Type := list Z.
Definition Store : Type := option Z.

Definition cursor_execute (s : Store) (q : string) : Store * option exc :=
  if q =? Status.count_query "Payroll" then
    (s, Some (OperationalError "no such table: Payroll"))
  else (Some (Z.of_nat (String.length q)), None).

Definition cursor_fetchone (s : Store) : Store * (exc + option Row) :=
  (None, inr (option_map (fun n => [n]) s)).

Definition first_count (row : Row) : option Z := hd_error row.

(** A database with two tables, told apart by the text of the script. *)
Definition cursor_executescript (s : list string) (sql : string)
    : list string * option string :=
  if startswith sql "CREATE" then ((s ++ ["schema"])%list, None)
  else if startswith sql "INSERT" then ((s ++ ["data"])%list, None)
  else (s, Some "syntax error").

End ToyStatus.

(** * Facts about the string primitives *)

Module PyStrFacts.
Import PyStr.

Example strip_both_ends : strip ("  a b " ++ nl) = "a b".
Proof. reflexivity. Qed.

Example strip_blank : strip (String (ascii_of_nat 9) "   ") = "".
Proof. reflexivity. Qed.

Example endswith_semicolon :
  endswith "FROM t;" ";" = true /\ endswith "FROM t; -- x" ";" = false.
Proof. split; reflexivity. Qed.

Example split_newline_trailing :
  split_newline ("a" ++ nl ++ nl ++ "b" ++ nl) = ["a"; ""; "b"; ""].
Proof. reflexivity. Qed.

Lemma is_empty_true (s : string) : is_empty s = true <-> s = "".
Proof. destruct s; simpl; split; congruence. Qed.

Lemma has_nonspace_app (a b : string) :
  has_nonspace (a ++ b) = has_nonspace a || has_nonspace b.
Proof.
  induction a as [|c a IH]; simpl; [reflexivity|].
  now rewrite IH, orb_assoc.
Qed.

Lemma rstrip_empty (s : string) : is_empty (rstrip s) = negb (has_nonspace s).
Proof.
  induction s as [|c s IH]; simpl; [reflexivity|].
  destruct (rstrip s) eqn:E; simpl in *.
  - destruct (has_nonspace s); [discriminate|].
    destruct (isspace c); reflexivity.
  - destruct (has_nonspace s); [|discriminate].
    now rewrite orb_true_r.
Qed.

Lemma rstrip_nonspace (s : string) : has_nonspace (rstrip s) = has_nonspace s.
Proof.
  induction s as [|c s IH]; simpl; [reflexivity|].
  destruct (rstrip s) eqn:E.
  - simpl in IH. rewrite <- IH.
    destruct (isspace c) eqn:Ec; simpl; rewrite ?Ec; reflexivity.
  - change (has_nonspace (String c (String a s0)))
      with (negb (isspace c) || has_nonspace (String a s0)).
    now rewrite IH.
Qed.

Lemma lstrip_empty (s : string) : is_empty (lstrip s) = negb (has_nonspace s).
Proof.
  induction s as [|c s IH]; simpl; [reflexivity|].
  destruct (isspace c); simpl; [exact IH | reflexivity].
Qed.

Lemma lstrip_nonspace (s : string) : has_nonspace (lstrip s) = has_nonspace s.
Proof.
  induction s as [|c s IH]; simpl; [reflexivity|].
  destruct (isspace c) eqn:Ec; simpl; rewrite ?Ec; simpl; [exact IH | reflexivity].
Qed.

(** [s.strip()] is empty exactly when [s] is all whitespace. *)
Lemma strip_empty (s : string) : is_empty (strip s) = negb (has_nonspace s).
Proof. unfold strip. now rewrite lstrip_empty, rstrip_nonspace. Qed.

Lemma strip_nonspace (s : string) : has_nonspace (strip s) = has_nonspace s.
Proof. unfold strip. now rewrite lstrip_nonspace, rstrip_nonspace. Qed.

(** Stripping twice does not change whether the text is blank. *)
Lemma strip_strip_empty (s : string) :
  is_empty (strip (strip s)) = is_empty (strip s).
Proof. now rewrite !strip_empty, strip_nonspace. Qed.

Lemma split_newline_not_nil (s : string) : split_newline s <> [].
Proof.
  induction s as [|c s IH]; simpl; [discriminate|].
  destruct (Ascii.eqb c newline); [discriminate|].
  destruct (split_newline s); [contradiction | discriminate].
Qed.

(** ["a\nb".split('\n') == a.split('\n') + b.split('\n')] *)
Lemma split_newline_app (a b : string) :
  split_newline (a ++ nl ++ b) = (split_newline a ++ split_newline b)%list.
Proof.
  change (nl ++ b) with (String newline b).
  induction a as [|c a IH].
  - reflexivity.
  - change (String c a ++ String newline b)
      with (String c (a ++ String newline b)).
    cbn [split_newline]. rewrite IH.
    destruct (Ascii.eqb c newline); [reflexivity|].
    pose proof (split_newline_not_nil a) as Hn.
    destruct (split_newline a); [contradiction | reflexivity].
Qed.

(** A text without a newline is one line. *)
Lemma split_newline_single (s : string) :
  has_newline s = false -> split_newline s = [s].
Proof.
  induction s as [|c s IH]; simpl; [reflexivity|].
  intros H. apply orb_false_iff in H as [Hc Hs].
  now rewrite Hc, IH.
Qed.

End PyStrFacts.

(** * The statement splitter *)

Module SplitterFacts.
Import PyStr PyStrFacts Splitter.

Lemma set_in_comment_same (st : state) : set_in_comment st (in_comment st) = st.
Proof. destruct st; reflexivity. Qed.

Lemma run_lines_app (st : state) (l1 l2 : list string) :
  run_lines st (l1 ++ l2)%list = run_lines (run_lines st l1) l2.
Proof. apply fold_left_app. Qed.

Lemma run_lines_cons (st : state) (l : string) (ls : list string) :
  run_lines st (l :: ls) = run_lines (step st l) ls.
Proof. reflexivity. Qed.

(** A line whose trimmed text starts with [--] leaves the three loop
    variables as they are. *)
Lemma step_line_comment (st : state) (raw : string) :
  startswith (strip raw) "--" = true -> step st raw = st.
Proof.
  intros H. unfold step. now rewrite H, orb_true_r.
Qed.

(** In comment mode no line changes [queries] or [current_query]. *)
Lemma step_in_comment (st : state) (raw : string) :
  in_comment st = true ->
  queries (step st raw) = queries st /\
  current_query (step st raw) = current_query st.
Proof.
  intros Hc. unfold step.
  destruct (is_empty (strip raw) || startswith (strip raw) "--"); [now split|].
  destruct (startswith (strip raw) "/*"); [now split|].
  destruct (endswith (strip raw) "*/"); [now split|].
  rewrite Hc. now split.
Qed.

(** In comment mode a line that does not end with [*/] changes nothing. *)
Lemma step_in_comment_stay (st : state) (raw : string) :
  in_comment st = true ->
  endswith (strip raw) "*/" = false ->
  step st raw = st.
Proof.
  intros Hc He. unfold step.
  destruct (is_empty (strip raw) || startswith (strip raw) "--"); [reflexivity|].
  destruct (startswith (strip raw) "/*").
  - rewrite <- Hc. apply set_in_comment_same.
  - now rewrite He, Hc.
Qed.

(** A line that ends with [*/], and is neither a [--] line nor a line that
    starts with [/*], switches to normal mode and adds nothing. *)
Lemma step_block_end (st : state) (raw : string) :
  startswith (strip raw) "--" = false ->
  startswith (strip raw) "/*" = false ->
  endswith (strip raw) "*/" = true ->
  step st raw = set_in_comment st false.
Proof.
  intros Hd Hs He. unfold step.
  destruct (is_empty (strip raw)) eqn:Em.
  - apply is_empty_true in Em. rewrite Em in He. discriminate.
  - now rewrite Hd, Hs, He.
Qed.

Lemma block_start_not_skipped (line : string) :
  startswith line "/*" = true ->
  is_empty line || startswith line "--" = false.
Proof.
  destruct line as [|a line]; cbn [startswith is_empty]; [discriminate|].
  destruct (Ascii.eqb_spec a "/"%char) as [->|]; [|discriminate].
  reflexivity.
Qed.

(** A line that starts with [/*] switches to comment mode, whatever its end. *)
Lemma step_block_start (st : state) (raw : string) :
  startswith (strip raw) "/*" = true ->
  step st raw = set_in_comment st true.
Proof.
  intros Hs. unfold step.
  now rewrite (block_start_not_skipped _ Hs), Hs.
Qed.

Lemma run_lines_in_comment (st : state) (ls : list string) :
  in_comment st = true ->
  Forall (fun l => endswith (strip l) "*/" = false) ls ->
  run_lines st ls = st.
Proof.
  intros Hc H. induction H as [|l ls Hl _ IH]; [reflexivity|].
  rewrite run_lines_cons, step_in_comment_stay by assumption. exact IH.
Qed.

Lemma flush_set_in_comment (st : state) (b : bool) :
  flush (set_in_comment st b) = flush st.
Proof. reflexivity. Qed.

(** Every statement the splitter produces has non-blank text, so the
    [if not query.strip(): continue] at line 510 never fires on them. *)
Lemma step_nonblank (st : state) (raw : string) :
  Forall nonblank (queries st) -> Forall nonblank (queries (step st raw)).
Proof.
  intros H. unfold step.
  destruct (is_empty (strip raw) || startswith (strip raw) "--") eqn:E1; [exact H|].
  destruct (startswith (strip raw) "/*"); [exact H|].
  destruct (endswith (strip raw) "*/"); [exact H|].
  destruct (in_comment st); [exact H|].
  destruct (endswith (strip raw) ";"); [|exact H].
  cbn [queries]. apply Forall_app. split; [exact H|].
  constructor; [|constructor].
  apply orb_false_iff in E1 as [E1 _].
  unfold nonblank. rewrite strip_strip_empty, strip_empty, !has_nonspace_app.
  rewrite strip_empty in E1. apply negb_false_iff in E1.
  rewrite strip_nonspace, E1. now rewrite orb_true_r.
Qed.

Lemma run_lines_nonblank (ls : list string) (st : state) :
  Forall nonblank (queries st) -> Forall nonblank (queries (run_lines st ls)).
Proof.
  revert st. induction ls as [|l ls IH]; intros st H; [exact H|].
  rewrite run_lines_cons. apply IH, step_nonblank, H.
Qed.

Lemma split_lines_nonblank (ls : list string) : Forall nonblank (split_lines ls).
Proof.
  unfold split_lines, flush.
  pose proof (run_lines_nonblank ls init (Forall_nil _)) as H.
  destruct (is_empty (strip (current_query (run_lines init ls)))) eqn:E; [exact H|].
  apply Forall_app. split; [exact H|].
  constructor; [|constructor].
  unfold nonblank. now rewrite strip_strip_empty.
Qed.

Lemma split_queries_nonblank (content : string) :
  Forall nonblank (split_queries content).
Proof. apply split_lines_nonblank. Qed.

Example split_multiline :
  split_queries ("  SELECT a," ++ nl ++ "   b FROM t ;  " ++ nl ++ "SELECT 3")
  = ["SELECT a, b FROM t ;"; "SELECT 3"].
Proof. vm_compute. reflexivity. Qed.

Example split_comment_only :
  split_queries ("-- a;" ++ nl ++ "/* b" ++ nl ++ "c; */" ++ nl) = [].
Proof. vm_compute. reflexivity. Qed.

Lemma split_lines_drop (pre post : list string) (raw : string) :
  step (run_lines init pre) raw = run_lines init pre ->
  split_lines (pre ++ raw :: post) = split_lines (pre ++ post).
Proof.
  intros H. unfold split_lines.
  now rewrite !run_lines_app, run_lines_cons, H.
Qed.

(** C6. Line-comment exclusion: a line whose trimmed text starts with [--]
    leaves [queries], [current_query] and [in_comment] as they were, so it
    adds no text and closes no statement; deleting the line from the script,
    as a line or in the text, leaves the produced statements the same. *)
Theorem line_comment_excluded (raw : string) :
  startswith (strip raw) "--" = true ->
  (forall st, step st raw = st) /\
  (forall pre post,
     split_lines (pre ++ raw :: post) = split_lines (pre ++ post)) /\
  (forall a b,
     has_newline raw = false ->
     split_queries (a ++ nl ++ raw ++ nl ++ b) = split_queries (a ++ nl ++ b)).
Proof.
  intros H. split; [|split].
  - intros st. now apply step_line_comment.
  - intros pre post. apply split_lines_drop. now apply step_line_comment.
  - intros a b Hn. unfold split_queries.
    rewrite !split_newline_app, (split_newline_single raw Hn).
    apply split_lines_drop. now apply step_line_comment.
Qed.

Lemma line_comment_excluded_witness :
  split_lines (["SELECT a"] ++ "  -- was b;" :: ["FROM t;"]) = ["SELECT a FROM t;"].
Proof.
  assert (H : startswith (strip "  -- was b;") "--" = true) by reflexivity.
  destruct (line_comment_excluded "  -- was b;" H) as (_ & Hd & _).
  rewrite Hd. vm_compute. reflexivity.
Defined.

(** C4. Block-comment exclusion: a line processed in comment mode changes
    neither [queries] nor [current_query], whatever it contains; unless it
    ends with [*/] it leaves the mode too, so the script produces the same
    statements without it; and the line that ends the comment (it ends with
    [*/] and is not itself a [--] or [/*] line) only switches back to normal
    mode. *)
Theorem block_comment_excluded (st : state) (raw : string) :
  in_comment st = true ->
  queries (step st raw) = queries st /\
  current_query (step st raw) = current_query st /\
  (endswith (strip raw) "*/" = false ->
     step st raw = st /\
     forall pre post, run_lines init pre = st ->
       split_lines (pre ++ raw :: post) = split_lines (pre ++ post)) /\
  (startswith (strip raw) "--" = false ->
   startswith (strip raw) "/*" = false ->
   endswith (strip raw) "*/" = true ->
     step st raw = set_in_comment st false).
Proof.
  intros Hc. destruct (step_in_comment st raw Hc) as [Hq Hb].
  repeat split; try assumption.
  - now apply step_in_comment_stay.
  - intros pre post <-. apply split_lines_drop.
    now apply step_in_comment_stay.
  - intros. now apply step_block_end.
Qed.

Lemma block_comment_excluded_witness :
  let st := run_lines init ["SELECT 1"; "/* off"] in
  queries (step st "DROP TABLE t;") = queries st /\
  current_query (step st "DROP TABLE t;") = "SELECT 1 " /\
  step st "on */" = set_in_comment st false.
Proof.
  intros st.
  assert (Hc : in_comment st = true) by reflexivity.
  destruct (block_comment_excluded st "DROP TABLE t;" Hc) as (Hq & Hb & _).
  destruct (block_comment_excluded st "on */" Hc) as (_ & _ & _ & He).
  split; [exact Hq | split; [rewrite Hb; reflexivity | apply He; reflexivity]].
Defined.

(** C7. A line that starts with [/*] and ends with [*/] switches to comment
    mode and stays there: the lines after it, as long as none ends with
    [*/], are all dropped, also those that end with [;], so the script
    produces what it had produced before that line; a later line that ends
    the comment switches back. *)
Theorem one_line_block_comment_swallows (raw : string) (rest : list string) :
  startswith (strip raw) "/*" = true ->
  endswith (strip raw) "*/" = true ->
  Forall (fun l => endswith (strip l) "*/" = false) rest ->
  (forall st, step st raw = set_in_comment st true) /\
  (forall st, run_lines st (raw :: rest) = set_in_comment st true) /\
  (forall pre, split_lines (pre ++ raw :: rest) = split_lines pre) /\
  (forall st closing,
     startswith (strip closing) "--" = false ->
     startswith (strip closing) "/*" = false ->
     endswith (strip closing) "*/" = true ->
     run_lines st (raw :: rest ++ [closing]) = set_in_comment st false).
Proof.
  intros Hs He Hrest.
  assert (Hrun : forall st, run_lines st (raw :: rest) = set_in_comment st true).
  { intros st. rewrite run_lines_cons, step_block_start by exact Hs.
    now apply run_lines_in_comment. }
  split; [|split; [|split]].
  - intros st. now apply step_block_start.
  - exact Hrun.
  - intros pre. unfold split_lines.
    now rewrite run_lines_app, Hrun, flush_set_in_comment.
  - intros st closing H1 H2 H3.
    change (raw :: rest ++ [closing])%list with ((raw :: rest) ++ [closing])%list.
    rewrite run_lines_app, Hrun. cbn [run_lines fold_left].
    now rewrite step_block_end.
Qed.

Lemma one_line_block_comment_swallows_witness :
  split_lines (["SELECT 1;"] ++ "/* note */" :: ["SELECT 2;"; "SELECT 3;"])
  = ["SELECT 1;"].
Proof.
  assert (Hs : startswith (strip "/* note */") "/*" = true) by reflexivity.
  assert (He : endswith (strip "/* note */") "*/" = true) by reflexivity.
  assert (Hr : Forall (fun l => endswith (strip l) "*/" = false)
                 ["SELECT 2;"; "SELECT 3;"])
    by (repeat constructor).
  destruct (one_line_block_comment_swallows "/* note */" _ Hs He Hr)
    as (_ & _ & Hd & _).
  rewrite Hd. vm_compute. reflexivity.
Defined.

End SplitterFacts.

(** * The execution loop *)

Module RunnerFacts.
Import PyStr PyStrFacts Splitter SplitterFacts Runner.

Section WithStore.

Context {Row Store : Type}.
Variable cursor_execute : Store -> string -> Store * option exc.
Variable cursor_fetchall : Store -> Store * (exc + list Row).
Variable cursor_description : Store -> list string.
Variable write_report : string -> list file_write -> option string.

Local Abbreviation run_query :=
  (run_query cursor_execute cursor_fetchall cursor_description).
Local Abbreviation statement_run :=
  (statement_run cursor_execute cursor_fetchall cursor_description).
Local Abbreviation run_loop :=
  (run_loop cursor_execute cursor_fetchall cursor_description).
Local Abbreviation fetch_results :=
  (fetch_results cursor_fetchall cursor_description).
Local Abbreviation store_after :=
  (store_after cursor_execute cursor_fetchall cursor_description).
Local Abbreviation raises := (raises cursor_execute cursor_fetchall).
Local Abbreviation run_all_queries :=
  (run_all_queries cursor_execute cursor_fetchall cursor_description
     write_report).

Ltac loop_eq :=
  unfold extend, on_error, append_result, emit, with_store; cbn;
  rewrite ?app_nil_r, <- ?app_assoc; cbn; try reflexivity.

Lemma fetch_results_frame verbose (st : loop_state) i q :
  fetch_results verbose st i q =
  extend st (fetch_results verbose (mkLoop (store st) [] []) i q).
Proof.
  destruct st as [s tr rs]. unfold Runner.fetch_results. cbn.
  destruct (cursor_fetchall s) as [s' [[m|m]|[|r rows]]]; loop_eq.
Qed.

(** One iteration only appends to the trace and to [all_results], and what
    it appends depends on the store alone. *)
Lemma run_query_frame verbose (st : loop_state) i q :
  run_query verbose st (i, q) = extend st (statement_run verbose (store st) i q).
Proof.
  unfold Runner.statement_run, Runner.run_query.
  destruct (is_empty (strip q)).
  - destruct st; loop_eq.
  - destruct st as [s tr rs]. cbn.
    destruct (cursor_execute s q) as [s' [[m|m]|]].
    + destruct verbose; loop_eq.
    + destruct verbose; loop_eq.
    + rewrite fetch_results_frame.
      rewrite (fetch_results_frame _ (emit _ _)).
      destruct verbose; loop_eq.
Qed.

Ltac run_cases Hq :=
  unfold Runner.store_after, Runner.raises, Runner.statement_run,
    Runner.run_query, Runner.fetch_results;
  unfold nonblank in Hq; rewrite ?Hq; cbn;
  destruct (cursor_execute _ _) as [? [[?|?]|]]; cbn;
  [ | | destruct (cursor_fetchall _) as [? [[?|?]|[|? ?]]]; cbn ].

Lemma submitted_app (a b : list (@event Row)) :
  submitted (a ++ b) = (submitted a ++ submitted b)%list.
Proof. apply flat_map_app. Qed.

Lemma console_app (a b : list (@event Row)) :
  console (a ++ b) = (console a ++ console b)%list.
Proof. apply flat_map_app. Qed.

(** A non-blank statement is handed to [cursor.execute] once. *)
Lemma statement_run_submitted verbose s i q :
  nonblank q -> submitted (trace (statement_run verbose s i q)) = [q].
Proof.
  intros Hq. run_cases Hq; destruct verbose; cbn;
    rewrite ?submitted_app; try reflexivity.
  all: unfold echo_rows; cbn; destruct (_ <=? _)%nat; reflexivity.
Qed.

(** The store after an iteration depends on neither [verbose] nor [i]. *)
Lemma statement_run_store verbose s i q :
  store (statement_run verbose s i q) = store_after s q.
Proof.
  unfold Runner.store_after, Runner.statement_run, Runner.run_query,
    Runner.fetch_results.
  destruct (is_empty (strip q)); [reflexivity|]. cbn.
  destruct (cursor_execute s q) as [? [[?|?]|]]; cbn; try reflexivity.
  destruct (cursor_fetchall _) as [? [[?|?]|[|? ?]]]; reflexivity.
Qed.

(** A non-blank statement adds exactly one result, numbered [i]; the result
    is an error exactly when an [except] branch of the outer [try] ran, and
    then it carries the message of the exception. *)
Lemma statement_run_result verbose s i q :
  nonblank q ->
  exists r,
    all_results (statement_run verbose s i q) = [r] /\
    query_num r = i /\ query r = truncated q /\
    match raises s q with
    | Some e => r = mkResult i (truncated q) RowsERROR [] (Some (exc_message e))
    | None => is_error r = false /\ error r = None
    end.
Proof.
  intros Hq. run_cases Hq; eexists; (split; [reflexivity|]); cbn; auto.
Qed.

(** The outcome recorded for a statement depends on neither its number nor
    [verbose]. *)
Lemma statement_run_outcome verbose verbose' s i i' q :
  map outcome_of (all_results (statement_run verbose s i q)) =
  map outcome_of (all_results (statement_run verbose' s i' q)).
Proof.
  unfold Runner.statement_run, Runner.run_query, Runner.fetch_results.
  destruct (is_empty (strip q)); [reflexivity|]. cbn.
  destruct (cursor_execute s q) as [? [[?|?]|]]; cbn; try reflexivity.
  destruct (cursor_fetchall _) as [? [[?|?]|[|? ?]]]; reflexivity.
Qed.

Lemma count_split (rs : list result) :
  count_successful rs + count_failed rs = List.length rs.
Proof.
  unfold count_successful, count_failed.
  induction rs as [|r rs IH]; [reflexivity|]. cbn.
  destruct (is_error r); cbn; lia.
Qed.

(** The loop over non-blank statements, from any state and first number. *)
Lemma run_loop_from verbose (qs : list string) :
  Forall nonblank qs ->
  forall (k : nat) (st : loop_state),
    let st' := fold_left (run_query verbose) (enumerate k qs) st in
    submitted (trace st') = (submitted (trace st) ++ qs)%list /\
    map query_num (all_results st') =
      (map query_num (all_results st) ++ seq k (List.length qs))%list.
Proof.
  induction 1 as [|q qs Hq _ IH]; intros k st; cbv zeta in *;
    cbn [enumerate fold_left List.length seq].
  - now rewrite !app_nil_r.
  - destruct (IH (S k) (run_query verbose st (k, q))) as [IHs IHn].
    rewrite IHs, IHn, run_query_frame. cbn [extend trace all_results].
    rewrite submitted_app, map_app, statement_run_submitted by exact Hq.
    destruct (statement_run_result verbose (store st) k q Hq)
      as (r & -> & <- & _).
    now rewrite <- !app_assoc.
Qed.

(** The trace of the loop is the trace before it followed by the blocks of
    the statements in order. *)
Lemma run_loop_blocks verbose (qs : list string) :
  forall (k : nat) (st : loop_state),
    trace (fold_left (run_query verbose) (enumerate k qs) st) =
      (trace st ++ blocks cursor_execute cursor_fetchall cursor_description
                     verbose (store st) k qs)%list.
Proof.
  induction qs as [|q qs IH]; intros k st; cbn [enumerate fold_left blocks].
  - now rewrite app_nil_r.
  - rewrite IH, run_query_frame. cbn [extend store trace].
    now rewrite statement_run_store, app_assoc.
Qed.

Lemma submitted_save_results output_file rs :
  submitted (@save_results Row write_report output_file rs) = [].
Proof.
  unfold save_results. destruct (output_requested output_file); [|reflexivity].
  cbn. destruct (write_report _ _); reflexivity.
Qed.

(** The run on a script that was read, unfolded once. *)
Lemma run_all_queries_text s0 content output_file verbose :
  run_all_queries true (ScriptText content) s0 output_file verbose =
  let queries := split_queries content in
  let st := run_loop verbose
              (mkLoop s0 [Connect; Say EchoBanner; Say EchoRule60;
                          Say (EchoFound (List.length queries));
                          Say EchoBlank] []) queries in
  mkOutcome
    (trace st ++
     [Say EchoSummaryHeader; Say EchoRule40;
      Say (EchoSuccessful (count_successful (all_results st)));
      Say (EchoFailed (count_failed (all_results st)));
      Say (EchoTotal (List.length queries))] ++
     save_results write_report output_file (all_results st) ++ [Close])%list
    (store st)
    (Some (mkSummary queries (all_results st)
             (count_successful (all_results st))
             (count_failed (all_results st)))).
Proof. reflexivity. Qed.

(** Every statement of the script reaches [cursor.execute] once, in order. *)
Lemma run_submits_all s0 content output_file verbose :
  submitted
    (events (run_all_queries true (ScriptText content) s0 output_file verbose))
  = split_queries content.
Proof.
  rewrite run_all_queries_text. cbv zeta. cbn [events].
  rewrite !submitted_app, submitted_save_results.
  unfold Runner.run_loop.
  destruct (run_loop_from verbose (split_queries content)
              (split_queries_nonblank content) 1
              (mkLoop s0 [Connect; Say EchoBanner; Say EchoRule60;
                          Say (EchoFound (List.length (split_queries content)));
                          Say EchoBlank] [])) as [Hs _].
  rewrite Hs. cbn. now rewrite app_nil_r.
Qed.

(** The numbers of the recorded results are 1, 2, ..., one per statement. *)
Lemma run_numbers_all s0 content output_file verbose :
  exists sm,
    run_summary
      (run_all_queries true (ScriptText content) s0 output_file verbose)
    = Some sm /\
    sum_queries sm = split_queries content /\
    successful sm = count_successful (sum_results sm) /\
    failed sm = count_failed (sum_results sm) /\
    map query_num (sum_results sm) = seq 1 (List.length (split_queries content)).
Proof.
  rewrite run_all_queries_text. cbv zeta. cbn [run_summary].
  eexists. split; [reflexivity|]. cbn [sum_queries sum_results successful failed].
  repeat split. unfold Runner.run_loop.
  destruct (run_loop_from verbose (split_queries content)
              (split_queries_nonblank content) 1
              (mkLoop s0 [Connect; Say EchoBanner; Say EchoRule60;
                          Say (EchoFound (List.length (split_queries content)));
                          Say EchoBlank] [])) as [_ Hn].
  exact Hn.
Qed.

Lemma run_loop_recorded verbose (qs : list string) :
  forall (k : nat) (st : loop_state),
    all_results (fold_left (run_query verbose) (enumerate k qs) st) =
      (all_results st ++
       recorded cursor_execute cursor_fetchall cursor_description
         verbose (store st) k qs)%list.
Proof.
  induction qs as [|q qs IH]; intros k st; cbn [enumerate fold_left recorded].
  - now rewrite app_nil_r.
  - rewrite IH, run_query_frame. cbn [extend store all_results].
    now rewrite statement_run_store, app_assoc.
Qed.

(** The summary of a run in terms of [recorded]. *)
Lemma run_summary_recorded s0 content output_file verbose :
  run_summary
    (run_all_queries true (ScriptText content) s0 output_file verbose) =
  let rs := recorded cursor_execute cursor_fetchall cursor_description
              verbose s0 1 (split_queries content) in
  Some (mkSummary (split_queries content) rs
          (count_successful rs) (count_failed rs)).
Proof.
  rewrite run_all_queries_text. cbv zeta. cbn [run_summary].
  unfold Runner.run_loop. now rewrite run_loop_recorded.
Qed.

(** C1. Failure isolation: the statements of the script are handed to
    [cursor.execute] once each, in script order, whatever the store answers;
    a statement that raises is recorded as an ['ERROR'] result with the
    message of the exception and the loop goes on; for a script of three
    statements of which only the second raises, the counters are 3, 2 and 1,
    and, when the failed statement leaves the store as it was, the first and
    third statements have the outcomes they have in the script without the
    second. *)
Theorem failure_isolation (s0 : Store) (content : string)
    (output_file : option string) (verbose : bool) :
  let out :=
    run_all_queries true (ScriptText content) s0 output_file verbose in
  submitted (events out) = split_queries content /\
  (forall (st : loop_state) i q e,
     nonblank q -> raises (store st) q = Some e ->
     all_results (run_query verbose st (i, q)) =
       (all_results st ++
        [mkResult i (truncated q) RowsERROR [] (Some (exc_message e))])%list) /\
  (forall q1 q2 q3 e,
     split_queries content = [q1; q2; q3] ->
     raises s0 q1 = None ->
     raises (store_after s0 q1) q2 = Some e ->
     raises (store_after (store_after s0 q1) q2) q3 = None ->
     exists r1 r3,
       run_summary out =
         Some (mkSummary [q1; q2; q3]
                 [r1; mkResult 2 (truncated q2) RowsERROR []
                        (Some (exc_message e)); r3] 2 1) /\
       is_error r1 = false /\ query_num r1 = 1 /\
       is_error r3 = false /\ query_num r3 = 3 /\
       forall content',
         split_queries content' = [q1; q3] ->
         store_after (store_after s0 q1) q2 = store_after s0 q1 ->
         exists sm',
           run_summary
             (run_all_queries true (ScriptText content') s0 output_file
                verbose) = Some sm' /\
           map outcome_of (sum_results sm') = [outcome_of r1; outcome_of r3]).
Proof.
  cbv zeta. split; [apply run_submits_all|]. split.
  - intros st i q e Hq He. rewrite run_query_frame. cbn [extend all_results].
    destruct (statement_run_result verbose (store st) i q Hq)
      as (r & -> & _ & _ & Hr).
    rewrite He in Hr. now subst r.
  - intros q1 q2 q3 e Hsplit H1 H2 H3.
    pose proof (split_queries_nonblank content) as Hnb.
    rewrite Hsplit in Hnb.
    inversion_clear Hnb as [|? ? Hq1 Hnb']. inversion_clear Hnb' as [|? ? Hq2 Hnb].
    inversion_clear Hnb as [|? ? Hq3 _].
    destruct (statement_run_result verbose s0 1 q1 Hq1)
      as (r1 & E1 & N1 & _ & R1).
    destruct (statement_run_result verbose (store_after s0 q1) 2 q2 Hq2)
      as (r2 & E2 & _ & _ & R2).
    destruct (statement_run_result verbose
                (store_after (store_after s0 q1) q2) 3 q3 Hq3)
      as (r3 & E3 & N3 & _ & R3).
    rewrite H1 in R1. rewrite H2 in R2. rewrite H3 in R3.
    destruct R1 as [R1 _]. destruct R3 as [R3 _]. subst r2.
    exists r1, r3. split; [|repeat split; try assumption].
    + rewrite run_summary_recorded, Hsplit. cbv zeta. cbn [recorded].
      rewrite E1, E2, E3. cbn [app].
      unfold count_successful, count_failed. cbn [filter].
      rewrite R1, R3. reflexivity.
    + intros content' Hsplit' Hsame.
      rewrite run_summary_recorded, Hsplit'. cbv zeta. cbn [recorded].
      eexists. split; [reflexivity|]. cbn [sum_results].
      rewrite app_nil_r, map_app, E1.
      rewrite (statement_run_outcome verbose verbose _ 2 3 q3), <- Hsame, E3.
      reflexivity.
Qed.

(** C2. Counter invariant: on every script, the echoed numbers of successes
    and failures add up to the echoed total, which is the number of
    statements the splitter produced, and the results are numbered
    1, 2, ..., total. *)
Theorem counters_invariant (s0 : Store) (content : string)
    (output_file : option string) (verbose : bool) :
  let out :=
    run_all_queries true (ScriptText content) s0 output_file verbose in
  exists sm before after,
    run_summary out = Some sm /\
    successful sm + failed sm = total sm /\
    total sm = List.length (split_queries content) /\
    map query_num (sum_results sm) = seq 1 (total sm) /\
    console (events out) =
      (before ++
       [EchoSummaryHeader; EchoRule40; EchoSuccessful (successful sm);
        EchoFailed (failed sm); EchoTotal (total sm)] ++ after)%list.
Proof.
  cbv zeta.
  destruct (run_numbers_all s0 content output_file verbose)
    as (sm & Hsm & Hq & Hok & Hko & Hnum).
  assert (Htot : total sm = List.length (split_queries content))
    by (unfold total; now rewrite Hq).
  exists sm. rewrite run_all_queries_text in *. cbv zeta in *.
  cbn [events run_summary] in *.
  eexists (console _), (console _).
  split; [exact Hsm|]. split; [|split; [exact Htot|split]].
  - rewrite Hok, Hko, count_split, Htot.
    now rewrite <- (length_map query_num), Hnum, length_seq.
  - now rewrite Htot.
  - injection Hsm as <-. cbn [successful failed total sum_queries].
    rewrite console_app, console_app. reflexivity.
Qed.

(** The iteration for a non-blank statement, one case per path through the
    two [try] blocks. *)
Lemma statement_run_eq verbose s i q :
  nonblank q ->
  statement_run verbose s i q =
  match cursor_execute s q with
  | (s', Some e) =>
      mkLoop s'
        (block_head verbose i q ++
         [Execute q; Say (echo_exc e); Say EchoBlank])%list
        [mkResult i (truncated q) RowsERROR [] (Some (exc_message e))]
  | (s', None) =>
      match cursor_fetchall s' with
      | (s'', inr (r :: rs)) =>
          mkLoop s''
            (block_head verbose i q ++ [Execute q; FetchAll] ++
             echo_rows verbose (r :: rs) (cursor_description s'') ++
             [Say EchoBlank])%list
            [mkResult i (truncated q) (RowsCount (List.length (r :: rs)))
               (cursor_description s'') None]
      | (s'', inr []) =>
          mkLoop s''
            (block_head verbose i q ++
             [Execute q; FetchAll; Say EchoNoResults; Say EchoBlank])%list
            [mkResult i (truncated q) (RowsCount 0) [] None]
      | (s'', inl (OperationalError _)) =>
          mkLoop s''
            (block_head verbose i q ++
             [Execute q; FetchAll; Say EchoExecuted; Say EchoBlank])%list
            [mkResult i (truncated q) RowsNA [] None]
      | (s'', inl (OtherException m)) =>
          mkLoop s''
            (block_head verbose i q ++
             [Execute q; FetchAll; Say (EchoUnexpected m); Say EchoBlank])%list
            [mkResult i (truncated q) RowsERROR [] (Some m)]
      end
  end.
Proof.
  intros Hq. unfold Runner.statement_run, Runner.run_query,
    Runner.fetch_results, block_head.
  unfold nonblank in Hq. rewrite Hq. cbn.
  destruct (cursor_execute s q) as [s' [[m|m]|]]; cbn.
  - destruct verbose; reflexivity.
  - destruct verbose; reflexivity.
  - destruct (cursor_fetchall s') as [s'' [[m|m]|[|r rs]]]; cbn;
      destruct verbose; cbn; rewrite <- ?app_assoc; reflexivity.
Qed.

Lemma table_rows_app (a b : list (@event Row)) :
  table_rows (a ++ b) = (table_rows a ++ table_rows b)%list.
Proof. apply flat_map_app. Qed.

Lemma table_rows_head verbose i q : table_rows (@block_head Row verbose i q) = [].
Proof. destruct verbose; reflexivity. Qed.

(** C5. Preview row cap: for a statement that executed and whose
    [fetchall] gave [results], the tables of the verbose block show the
    first three rows, and exactly three, when there are six rows or more,
    and all the rows when there are five or fewer. *)
Theorem preview_row_cap (s s' s'' : Store) (i : nat) (q : string)
    (results : list Row) :
  nonblank q ->
  cursor_execute s q = (s', None) ->
  cursor_fetchall s' = (s'', inr results) ->
  let shown := table_rows (trace (statement_run true s i q)) in
  (6 <= List.length results ->
     shown = firstn 3 results /\ List.length shown = 3) /\
  (List.length results <= 5 -> shown = results).
Proof.
  intros Hq He Hf. cbv zeta.
  rewrite (statement_run_eq true s i q Hq), He, Hf.
  destruct results as [|r rs]; cbn [trace].
  - split; [cbn; lia | reflexivity].
  - rewrite !table_rows_app, table_rows_head. unfold echo_rows.
    split; intros Hlen.
    + destruct (Nat.leb_spec (List.length (r :: rs)) 5) as [Hle|_]; [lia|].
      cbn [table_rows flat_map app]. rewrite !app_nil_r.
      split; [reflexivity|]. rewrite length_firstn. lia.
    + destruct (Nat.leb_spec (List.length (r :: rs)) 5) as [_|Hgt]; [|lia].
      cbn [table_rows flat_map app]. now rewrite !app_nil_r.
Qed.

Lemma conn_after_close (tr : list (@event Row)) :
  conn_after (tr ++ [Close]) = Closed.
Proof. unfold conn_after. now rewrite fold_left_app. Qed.

(** C8, as the code has it: when the connection was acquired and
    queries.sql is absent or cannot be read, the function returns with the
    connection still open; only the run that reaches the loop closes it, as
    its last action. *)
Theorem connection_release (s0 : Store) (output_file : option string)
    (verbose : bool) :
  conn_after (events (run_all_queries true ScriptAbsent s0 output_file verbose))
    = Open /\
  (forall e,
     conn_after
       (events (run_all_queries true (ScriptUnreadable e) s0 output_file
                  verbose)) = Open) /\
  (forall content,
     let out :=
       run_all_queries true (ScriptText content) s0 output_file verbose in
     conn_after (events out) = Closed /\
     exists tr, events out = (tr ++ [Close])%list).
Proof.
  split; [reflexivity|]. split; [reflexivity|].
  intros content. cbv zeta. rewrite run_all_queries_text. cbv zeta.
  cbn [events]. rewrite !app_assoc. split.
  - apply conn_after_close.
  - eexists. reflexivity.
Qed.

(** C9. Output-write error containment: with an output path, the summary,
    the results, the store and the statements executed are those of the
    run without one; when the write fails, the console is the console of
    that run, counters included, followed by the one line that reports the
    error. *)
Theorem write_error_contained (db_exists : bool) (script : script_file)
    (s0 : Store) (path : string) (verbose : bool) :
  let out := run_all_queries db_exists script s0 (Some path) verbose in
  let base := run_all_queries db_exists script s0 None verbose in
  run_summary out = run_summary base /\
  final_store out = final_store base /\
  submitted (events out) = submitted (events base) /\
  (forall sm e,
     run_summary out = Some sm ->
     is_empty path = false ->
     write_report path (report (sum_results sm)) = Some e ->
     console (events out) = (console (events base) ++ [EchoSaveError e])%list).
Proof.
  cbv zeta. destruct db_exists; [|repeat split; discriminate].
  destruct script as [|e0|content]; try (repeat split; discriminate).
  rewrite !run_all_queries_text. cbv zeta.
  cbn [run_summary final_store events]. repeat split.
  - now rewrite !submitted_app, !submitted_save_results.
  - intros sm e Hsm Hp Hw. injection Hsm as <-. cbn [sum_results] in Hw.
    rewrite !console_app. unfold save_results at 1. cbn [output_requested].
    rewrite Hp, Hw. unfold save_results, output_requested. cbn.
    now rewrite <- !app_assoc.
Qed.

Lemma split_roundtrip :
  split_queries Scripts.script_roundtrip = ["SELECT 1;"; "SELECT 2;"].
Proof. vm_compute. reflexivity. Qed.

(** C3. Round-trip scenario: the script of the scenario splits into
    [SELECT 1;] and [SELECT 2;], in that order, and on a store that answers
    each of them with one row both are recorded as successes with one row. *)
Theorem roundtrip_scenario (s0 : Store) (output_file : option string)
    (verbose : bool) :
  (forall s q, q = "SELECT 1;" \/ q = "SELECT 2;" ->
     exists s' s'' row,
       cursor_execute s q = (s', None) /\
       cursor_fetchall s' = (s'', inr [row])) ->
  split_queries Scripts.script_roundtrip = ["SELECT 1;"; "SELECT 2;"] /\
  exists cols1 cols2,
    run_summary
      (run_all_queries true (ScriptText Scripts.script_roundtrip) s0
         output_file verbose) =
    Some (mkSummary ["SELECT 1;"; "SELECT 2;"]
            [mkResult 1 "SELECT 1;" (RowsCount 1) cols1 None;
             mkResult 2 "SELECT 2;" (RowsCount 1) cols2 None] 2 0).
Proof.
  intros Hstore. split; [exact split_roundtrip|].
  rewrite run_summary_recorded, split_roundtrip. cbv zeta. cbn [recorded].
  assert (Hq1 : nonblank "SELECT 1;") by reflexivity.
  assert (Hq2 : nonblank "SELECT 2;") by reflexivity.
  destruct (Hstore s0 "SELECT 1;" (or_introl eq_refl))
    as (s1 & s1' & row1 & He1 & Hf1).
  assert (Hs1 : store_after s0 "SELECT 1;" = s1').
  { unfold Runner.store_after.
    now rewrite (statement_run_eq false s0 0 _ Hq1), He1, Hf1. }
  destruct (Hstore s1' "SELECT 2;" (or_intror eq_refl))
    as (s2 & s2' & row2 & He2 & Hf2).
  rewrite (statement_run_eq verbose s0 1 _ Hq1), He1, Hf1, Hs1.
  rewrite (statement_run_eq verbose s1' 2 _ Hq2), He2, Hf2.
  cbn [all_results app List.length].
  exists (cursor_description s1'), (cursor_description s2'). reflexivity.
Qed.

(** C10, as the code has it: the events of the loop are the blocks of the
    statements in order; the console part of a block is the header with the
    number of the statement, in verbose mode the first 100 characters of the
    statement followed by [...] when it is longer, then the outcome, then an
    empty line.  The outcome is the row count when rows came back, a line
    without a count when none did or the fetch does not apply, and on
    failure the whole message of the exception. *)
Theorem console_block_format (verbose : bool) :
  (forall s0 content output_file,
     exists before after,
       events
         (run_all_queries true (ScriptText content) s0 output_file verbose) =
       (before ++
        blocks cursor_execute cursor_fetchall cursor_description verbose s0 1
          (split_queries content) ++ after)%list) /\
  (forall s i q,
     nonblank q ->
     exists body r,
       console (trace (statement_run verbose s i q)) =
         ([EchoQueryHeader i] ++
          (if verbose then
             [EchoQueryText
                (take 100 q ++
                 (if (100 <? String.length q)%nat then "..." else ""))]
           else []) ++ body ++ [EchoBlank])%list /\
       all_results (statement_run verbose s i q) = [r] /\
       query_num r = i /\
       match rows r with
       | RowsCount 0 => body = [EchoNoResults]
       | RowsCount (S n) =>
           if verbose then exists rest, body = EchoResults (S n) :: rest
           else body = [EchoRowsReturned (S n)]
       | RowsNA => body = [EchoExecuted]
       | RowsERROR =>
           exists e, raises s q = Some e /\ error r = Some (exc_message e) /\
             (body = [EchoError (exc_message e)] \/
              body = [EchoUnexpected (exc_message e)])
       end).
Proof.
  split.
  - intros s0 content output_file. rewrite run_all_queries_text. cbv zeta.
    cbn [events]. unfold Runner.run_loop. rewrite run_loop_blocks.
    cbn [trace store]. rewrite <- app_assoc. eexists _, _. reflexivity.
  - intros s i q Hq. rewrite (statement_run_eq verbose s i q Hq).
    unfold Runner.raises, block_head, shown_text.
    destruct (cursor_execute s q) as [s' [e|]].
    + exists [echo_exc e]. eexists. cbn [trace all_results].
      split; [destruct verbose; reflexivity|]. split; [reflexivity|].
      split; [reflexivity|]. cbn [rows error]. exists e.
      split; [reflexivity|]. split; [reflexivity|].
      destruct e; cbn; auto.
    + destruct (cursor_fetchall s') as [s'' [[m|m]|[|r rs]]].
      * exists [EchoExecuted]. eexists. cbn [trace all_results].
        split; [destruct verbose; reflexivity|]. repeat split.
      * exists [EchoUnexpected m]. eexists. cbn [trace all_results].
        split; [destruct verbose; reflexivity|]. split; [reflexivity|].
        split; [reflexivity|]. cbn [rows error].
        exists (OtherException m). cbn. auto.
      * exists [EchoNoResults]. eexists. cbn [trace all_results].
        split; [destruct verbose; reflexivity|]. repeat split.
      * exists (console (echo_rows verbose (r :: rs) (cursor_description s''))).
        eexists. cbn [trace all_results].
        split; [|split; [reflexivity|split; [reflexivity|]]].
        -- rewrite !console_app. destruct verbose; reflexivity.
        -- cbn [rows List.length]. unfold echo_rows.
           destruct verbose; [|reflexivity].
           eexists. cbn [console flat_map app]. reflexivity.
Qed.

End WithStore.

(** ** The scenarios on the small store *)

Lemma failure_isolation_witness :
  exists r1 r3,
    run_summary (ToyStore.run (ScriptText Scripts.script_bad_middle) None true)
    = Some (mkSummary ["SELECT 1;"; "SELEC 2;"; "SELECT 2;"]
              [r1; mkResult 2 "SELEC 2;" RowsERROR []
                     (Some "syntax error in: SELEC 2;"); r3] 2 1) /\
    is_error r1 = false /\ is_error r3 = false /\
    exists sm',
      run_summary
        (ToyStore.run (ScriptText Scripts.script_without_middle) None true)
      = Some sm' /\
      map outcome_of (sum_results sm') = [outcome_of r1; outcome_of r3].
Proof.
  destruct (failure_isolation ToyStore.cursor_execute ToyStore.cursor_fetchall
              ToyStore.cursor_description ToyStore.write_report
              [] Scripts.script_bad_middle None true) as (_ & _ & H).
  destruct (H "SELECT 1;" "SELEC 2;" "SELECT 2;"
              (OperationalError "syntax error in: SELEC 2;")
              eq_refl eq_refl eq_refl eq_refl)
    as (r1 & r3 & Hsum & E1 & _ & E3 & _ & Hsame).
  exists r1, r3. split; [exact Hsum|]. split; [exact E1|]. split; [exact E3|].
  exact (Hsame Scripts.script_without_middle eq_refl eq_refl).
Defined.

Lemma roundtrip_scenario_witness :
  exists cols1 cols2,
    run_summary (ToyStore.run (ScriptText Scripts.script_roundtrip) None false)
    = Some (mkSummary ["SELECT 1;"; "SELECT 2;"]
              [mkResult 1 "SELECT 1;" (RowsCount 1) cols1 None;
               mkResult 2 "SELECT 2;" (RowsCount 1) cols2 None] 2 0).
Proof.
  refine (proj2 (roundtrip_scenario ToyStore.cursor_execute
                   ToyStore.cursor_fetchall ToyStore.cursor_description
                   ToyStore.write_report [] None false _)).
  intros s q [-> | ->].
  - exists [[1]], [], [1]. split; reflexivity.
  - exists [[2]], [], [2]. split; reflexivity.
Defined.

Lemma preview_row_cap_witness :
  table_rows (trace (ToyStore.one true [] 1 "SELECT n FROM seven;"))
  = [[1]; [2]; [3]].
Proof.
  refine (proj1 (proj1 (preview_row_cap ToyStore.cursor_execute
            ToyStore.cursor_fetchall ToyStore.cursor_description
            [] (map (fun n => [n]) (seq 1 7)) [] 1 "SELECT n FROM seven;"
            (map (fun n => [n]) (seq 1 7)) eq_refl eq_refl eq_refl) _)).
  cbn. lia.
Defined.

Lemma write_error_contained_witness :
  console (events (ToyStore.run (ScriptText Scripts.script_bad_middle)
                     (Some "/missing/out.txt") false)) =
  (console (events (ToyStore.run (ScriptText Scripts.script_bad_middle)
                      None false)) ++
   [EchoSaveError "[Errno 2] No such file or directory"])%list.
Proof.
  destruct (write_error_contained ToyStore.cursor_execute
              ToyStore.cursor_fetchall ToyStore.cursor_description
              ToyStore.write_report true
              (ScriptText Scripts.script_bad_middle) [] "/missing/out.txt"
              false) as (_ & _ & _ & H).
  exact (H _ _ eq_refl eq_refl eq_refl).
Defined.

Lemma console_block_format_witness :
  exists body r,
    console (trace (ToyStore.one true [] 4 ToyStore.long_statement)) =
      ([EchoQueryHeader 4] ++
       [EchoQueryText (take 100 ToyStore.long_statement ++ "...")] ++
       body ++ [EchoBlank])%list /\
    all_results (ToyStore.one true [] 4 ToyStore.long_statement) = [r] /\
    query_num r = 4.
Proof.
  destruct (proj2 (console_block_format ToyStore.cursor_execute
                     ToyStore.cursor_fetchall ToyStore.cursor_description
                     ToyStore.write_report true)
              [] 4 ToyStore.long_statement eq_refl)
    as (body & r & Hc & Hr & Hn & _).
  exists body, r. split; [exact Hc|]. split; [exact Hr | exact Hn].
Defined.

Lemma junk_length (n : nat) : String.length (ToyStore.junk n) = n.
Proof. induction n as [|n IH]; cbn; [reflexivity | now rewrite IH]. Qed.

Lemma junk_block (n : nat) :
  console (trace (ToyStore.one false [] 1 (ToyStore.junk (S n)))) =
  [EchoQueryHeader 1;
   EchoError ("syntax error in: " ++ ToyStore.junk (S n)); EchoBlank].
Proof.
  unfold ToyStore.one. rewrite statement_run_eq.
  - reflexivity.
  - unfold nonblank. rewrite strip_empty. reflexivity.
Qed.

(** C10, counterexample: the store rejects a statement with a message of
    142 characters and the console shows all of them; indeed no bound holds
    for the length of the error text on the console. *)
Lemma console_error_not_truncated :
  console (trace (ToyStore.one false [] 1 ToyStore.long_statement)) =
    [EchoQueryHeader 1;
     EchoError ("syntax error in: " ++ ToyStore.long_statement); EchoBlank] /\
  String.length ("syntax error in: " ++ ToyStore.long_statement) = 142 /\
  ~ (exists bound : nat,
       forall q,
         Forall (fun e => match e with
                          | EchoError m => String.length m <= bound
                          | _ => True
                          end)
           (console (trace (ToyStore.one false [] 1 q)))).
Proof.
  split; [vm_compute; reflexivity|]. split; [vm_compute; reflexivity|].
  intros [bound H]. specialize (H (ToyStore.junk (S bound))).
  rewrite junk_block in H.
  inversion_clear H as [|? ? _ H']. inversion_clear H' as [|? ? Hlen _].
  cbn [append ToyStore.junk String.length] in Hlen.
  rewrite junk_length in Hlen. lia.
Qed.

End RunnerFacts.

(** * More on the string primitives and the splitter *)

Module SplitterExtra.
Import PyStr PyStrFacts Splitter SplitterFacts Lines.

Lemma is_empty_false (s : string) : is_empty s = false <-> s <> "".
Proof. destruct s; simpl; split; congruence. Qed.

Lemma lstrip_idem (s : string) : lstrip (lstrip s) = lstrip s.
Proof.
  induction s as [|c s IH]; [reflexivity|]. cbn [lstrip].
  destruct (isspace c) eqn:Ec; [exact IH|]. cbn [lstrip]. now rewrite Ec.
Qed.

Lemma rstrip_idem (s : string) : rstrip (rstrip s) = rstrip s.
Proof.
  induction s as [|c s IH]; [reflexivity|]. cbn [rstrip].
  destruct (rstrip s) as [|a r] eqn:E.
  - destruct (isspace c) eqn:Ec; [reflexivity|]. cbn. now rewrite Ec.
  - change (rstrip (String c (String a r)))
      with (match rstrip (String a r) with
            | EmptyString =>
                if isspace c then EmptyString else String c EmptyString
            | String x y => String c (String x y)
            end).
    now rewrite IH.
Qed.

(** Trimming the two ends can be done in either order. *)
Lemma rstrip_lstrip (s : string) : rstrip (lstrip s) = lstrip (rstrip s).
Proof.
  induction s as [|c s IH]; [reflexivity|]. cbn [lstrip rstrip].
  destruct (isspace c) eqn:Ec.
  - rewrite IH. destruct (rstrip s) as [|a r]; [reflexivity|].
    cbn [lstrip]. now rewrite Ec.
  - cbn [rstrip]. destruct (rstrip s) as [|a r]; cbn [lstrip]; now rewrite Ec.
Qed.

Lemma lstrip_strip (s : string) : lstrip (strip s) = strip s.
Proof. unfold strip. apply lstrip_idem. Qed.

Lemma rstrip_strip (s : string) : rstrip (strip s) = strip s.
Proof. unfold strip. now rewrite <- rstrip_lstrip, rstrip_idem. Qed.

(** [s.strip().strip() == s.strip()] *)
Lemma strip_idem (s : string) : strip (strip s) = strip s.
Proof. unfold strip at 1. now rewrite rstrip_strip, lstrip_strip. Qed.

Lemma rstrip_app_blank (a b : string) :
  has_nonspace b = false -> rstrip (a ++ b) = rstrip a.
Proof.
  intros Hb. induction a as [|c a IH].
  - cbn [append]. apply is_empty_true. now rewrite rstrip_empty, Hb.
  - cbn [append rstrip]. now rewrite IH.
Qed.

Lemma rstrip_app_keep (a b : string) :
  rstrip b <> "" -> rstrip (a ++ b) = a ++ rstrip b.
Proof.
  intros Hb. induction a as [|c a IH]; [reflexivity|].
  cbn [append rstrip]. rewrite IH.
  destruct (a ++ rstrip b) as [|x r] eqn:E; [|reflexivity].
  exfalso. destruct a; cbn in E; [contradiction | discriminate].
Qed.

Lemma lstrip_app_keep (a b : string) :
  lstrip a <> "" -> lstrip (a ++ b) = lstrip a ++ b.
Proof.
  intros Ha. induction a as [|c a IH]; [contradiction|].
  cbn [append lstrip] in *. destruct (isspace c); [now apply IH | reflexivity].
Qed.

Lemma endswith_refl (s : string) : endswith s s = true.
Proof. destruct s; cbn [endswith]; now rewrite String.eqb_refl. Qed.

Lemma endswith_app (a b p : string) :
  endswith b p = true -> endswith (a ++ b) p = true.
Proof.
  intros H. induction a as [|c a IH]; [exact H|].
  cbn [append endswith]. now rewrite IH, orb_true_r.
Qed.

Lemma endswith_lstrip_semicolon (s : string) :
  endswith s ";" = true -> endswith (lstrip s) ";" = true.
Proof.
  induction s as [|c s IH]; [discriminate|].
  intros H. cbn [lstrip]. destruct (isspace c) eqn:Ec; [|exact H].
  cbn [endswith] in H. apply orb_true_iff in H as [H|H]; [|now apply IH].
  apply String.eqb_eq in H. injection H as -> ->. discriminate Ec.
Qed.

(** A trimmed non-empty text followed by one space trims back to itself
    on the right. *)
Lemma rstrip_line_space (raw : string) :
  is_empty (strip raw) = false ->
  rstrip (strip raw ++ " ") = strip raw /\ rstrip (strip raw ++ " ") <> "".
Proof.
  intros H. rewrite rstrip_app_blank by reflexivity. rewrite rstrip_strip.
  split; [reflexivity|]. now apply is_empty_false.
Qed.

(** The statement closed by a line that ends with [;] ends with [;]. *)
Lemma closed_statement_terminated (cq raw : string) :
  is_empty (strip raw) = false ->
  endswith (strip raw) ";" = true ->
  endswith (strip (cq ++ strip raw ++ " ")) ";" = true.
Proof.
  intros Hn He. unfold strip at 1.
  destruct (rstrip_line_space raw Hn) as [Hr Hne].
  rewrite rstrip_app_keep by exact Hne. rewrite Hr.
  apply endswith_lstrip_semicolon, endswith_app, He.
Qed.

(** What [step] does to the statements already closed. *)
Lemma step_queries (st : state) (raw : string) :
  queries (step st raw) = queries st \/
  (is_empty (strip raw) = false /\ terminated raw = true /\
   queries (step st raw) =
     (queries st ++ [strip (current_query st ++ strip raw ++ " ")])%list).
Proof.
  unfold step, terminated.
  destruct (is_empty (strip raw)) eqn:Em; [now left|]. cbn [orb].
  destruct (startswith (strip raw) "--"); [now left|].
  destruct (startswith (strip raw) "/*"); [now left|].
  destruct (endswith (strip raw) "*/"); [now left|].
  destruct (in_comment st); [now left|].
  destruct (endswith (strip raw) ";"); [|now left].
  right. repeat split.
Qed.

Lemma run_lines_invariant (P : string -> Prop) :
  (forall cq raw,
     is_empty (strip raw) = false -> terminated raw = true ->
     P (strip (cq ++ strip raw ++ " "))) ->
  forall ls st, Forall P (queries st) -> Forall P (queries (run_lines st ls)).
Proof.
  intros HP. induction ls as [|l ls IH]; intros st H; [exact H|].
  rewrite run_lines_cons. apply IH.
  destruct (step_queries st l) as [-> | (Hn & Ht & ->)]; [exact H|].
  apply Forall_app. split; [exact H|]. constructor; [now apply HP | constructor].
Qed.

(** X1. Every statement the splitter produces is trimmed and non-empty:
    stripping it again gives the same text, and the text is not the empty
    string. *)
Theorem statements_trimmed (content : string) :
  Forall (fun q => strip q = q /\ q <> "") (split_queries content).
Proof.
  assert (Hs : Forall (fun q => strip q = q) (split_queries content)).
  { unfold split_queries, split_lines, flush.
    pose proof (run_lines_invariant (fun q => strip q = q)
                  (fun cq raw _ _ => strip_idem _)
                  (split_newline content) init (Forall_nil _)) as H.
    destruct (is_empty (strip (current_query _))); [exact H|].
    apply Forall_app. split; [exact H|].
    constructor; [apply strip_idem | constructor]. }
  pose proof (split_queries_nonblank content) as Hn.
  rewrite Forall_forall in *. intros q Hq. split; [now apply Hs|].
  specialize (Hn q Hq). unfold nonblank in Hn. rewrite (Hs q Hq) in Hn.
  now apply is_empty_false.
Qed.

(** X2. Every statement closed inside the loop ends with [;]; the final
    flush adds at most one more statement after them, so only the last
    statement of a script can lack its terminator. *)
Theorem statements_terminated (lines : list string) :
  let closed := queries (run_lines init lines) in
  Forall (fun q => endswith q ";" = true) closed /\
  (split_lines lines = closed \/
   exists rest, split_lines lines = (closed ++ [rest])%list).
Proof.
  cbv zeta. split.
  - apply (run_lines_invariant (fun q => endswith q ";" = true)); [|constructor].
    intros cq raw Hn Ht. now apply closed_statement_terminated.
  - unfold split_lines, flush.
    destruct (is_empty (strip (current_query _))); [now left|].
    right. eexists. reflexivity.
Qed.

Lemma step_count (st : state) (raw : string) :
  List.length (queries (step st raw)) <=
  List.length (queries st) + (if terminated raw then 1 else 0).
Proof.
  destruct (step_queries st raw) as [-> | (_ & -> & ->)]; [lia|].
  rewrite length_app. cbn. lia.
Qed.

Lemma run_lines_count (ls : list string) (st : state) :
  List.length (queries (run_lines st ls)) <=
  List.length (queries st) + count_terminated ls.
Proof.
  revert st. induction ls as [|l ls IH]; intros st; [cbn; lia|].
  rewrite run_lines_cons. specialize (IH (step st l)).
  pose proof (step_count st l) as Hs. unfold count_terminated in *.
  cbn [filter]. destruct (terminated l); cbn [List.length] in *; lia.
Qed.

Lemma count_terminated_none (ls : list string) :
  Forall (fun l => terminated l = false) ls -> count_terminated ls = 0.
Proof.
  unfold count_terminated. induction 1 as [|l ls Hl _ IH]; [reflexivity|].
  cbn [filter]. now rewrite Hl.
Qed.

(** X3. The splitter never produces more statements than the script has
    lines ending with [;], plus one for an unterminated rest; a [;] inside a
    line closes nothing, so a script with no line ending in [;] gives at
    most one statement. *)
Theorem statement_count_bound (content : string) :
  let lines := split_newline content in
  List.length (split_queries content) <= count_terminated lines + 1 /\
  (Forall (fun l => terminated l = false) lines ->
   List.length (split_queries content) <= 1).
Proof.
  cbv zeta.
  assert (H : List.length (split_queries content)
              <= count_terminated (split_newline content) + 1).
  { unfold split_queries, split_lines, flush.
    pose proof (run_lines_count (split_newline content) init) as Hc.
    cbn [queries init List.length] in Hc.
    destruct (is_empty (strip (current_query _))); [lia|].
    rewrite length_app. cbn. lia. }
  split; [exact H|]. intros Hall.
  rewrite (count_terminated_none _ Hall) in H. exact H.
Qed.

Lemma statement_count_bound_witness :
  List.length (split_queries "SELECT 1; SELECT 2; SELECT 3") <= 1.
Proof.
  apply (statement_count_bound "SELECT 1; SELECT 2; SELECT 3").
  vm_compute. repeat constructor.
Defined.

Lemma append_assoc (a b c : string) : (a ++ b) ++ c = a ++ b ++ c.
Proof. induction a as [|x a IH]; cbn [append]; [reflexivity | now rewrite IH]. Qed.

Lemma append_nil_r (a : string) : a ++ "" = a.
Proof. induction a as [|x a IH]; cbn [append]; [reflexivity | now rewrite IH]. Qed.

Lemma append_not_nil_l (a b : string) : a <> "" -> a ++ b <> "".
Proof. destruct a; [contradiction | discriminate]. Qed.

Lemma plain_spec (raw : string) :
  plain raw = true ->
  is_empty (strip raw) = false /\ startswith (strip raw) "--" = false /\
  startswith (strip raw) "/*" = false /\ endswith (strip raw) "*/" = false.
Proof.
  unfold plain. cbv zeta. intros H.
  apply andb_true_iff in H as [H H4]. apply andb_true_iff in H as [H H3].
  apply andb_true_iff in H as [H1 H2].
  now rewrite negb_true_iff in *.
Qed.

(** A plain line in normal mode: lines 492-497. *)
Lemma step_plain (st : state) (raw : string) :
  plain raw = true -> in_comment st = false ->
  step st raw =
  if terminated raw then
    mkState (queries st ++ [strip (current_query st ++ strip raw ++ " ")])%list
      "" false
  else mkState (queries st) (current_query st ++ strip raw ++ " ") false.
Proof.
  intros Hp Hc. destruct (plain_spec raw Hp) as (H1 & H2 & H3 & H4).
  unfold step, terminated. rewrite H1, H2, H3, H4, Hc. cbn [orb].
  destruct (endswith (strip raw) ";"); reflexivity.
Qed.

(** X4. A line whose trimmed text ends with [*/] adds nothing to any
    statement in either mode; in normal mode, unless it starts with [/*],
    it is dropped whole, also when statement text with a [;] precedes the
    comment on that line. *)
Theorem trailing_block_end_dropped (st : state) (raw : string) :
  endswith (strip raw) "*/" = true ->
  queries (step st raw) = queries st /\
  current_query (step st raw) = current_query st /\
  (startswith (strip raw) "/*" = false -> in_comment st = false ->
     step st raw = st /\
     forall pre post, run_lines init pre = st ->
       split_lines (pre ++ raw :: post) = split_lines (pre ++ post)).
Proof.
  intros He.
  assert (Hstep : startswith (strip raw) "/*" = false ->
                  in_comment st = false -> step st raw = st).
  { intros Hs Hc. unfold step.
    destruct (is_empty (strip raw) || startswith (strip raw) "--");
      [reflexivity|].
    rewrite Hs, He, <- Hc. apply set_in_comment_same. }
  split; [|split].
  - unfold step.
    destruct (is_empty (strip raw) || startswith (strip raw) "--");
      [reflexivity|].
    destruct (startswith (strip raw) "/*"); [reflexivity|]. now rewrite He.
  - unfold step.
    destruct (is_empty (strip raw) || startswith (strip raw) "--");
      [reflexivity|].
    destruct (startswith (strip raw) "/*"); [reflexivity|]. now rewrite He.
  - intros Hs Hc. split; [now apply Hstep|].
    intros pre post <-. apply split_lines_drop. now apply Hstep.
Qed.

Lemma trailing_block_end_dropped_witness :
  split_lines (["SELECT 0;"] ++ "SELECT 1; /* one */" :: ["SELECT 2;"])
  = ["SELECT 0;"; "SELECT 2;"].
Proof.
  destruct (trailing_block_end_dropped (run_lines init ["SELECT 0;"])
              "SELECT 1; /* one */" eq_refl) as (_ & _ & H).
  destruct (H eq_refl eq_refl) as [_ Hd].
  rewrite (Hd ["SELECT 0;"] ["SELECT 2;"] eq_refl). vm_compute. reflexivity.
Defined.

Lemma run_lines_skipped (ls : list string) (st : state) :
  Forall (fun l => skipped l = true) ls -> run_lines st ls = st.
Proof.
  induction 1 as [|l ls Hl _ IH]; [reflexivity|].
  rewrite run_lines_cons. unfold step. unfold skipped in Hl. now rewrite Hl.
Qed.

Lemma trail_app (a b : list string) : trail (a ++ b) = trail a ++ trail b.
Proof.
  induction a as [|l a IH]; cbn [app trail append]; [reflexivity|].
  now rewrite IH, !append_assoc.
Qed.

(** Plain unterminated lines in normal mode only extend [current_query]. *)
Lemma run_lines_plain (ls : list string) :
  Forall (fun l => plain l = true /\ terminated l = false) ls ->
  forall st, in_comment st = false ->
    run_lines st ls =
    mkState (queries st) (current_query st ++ trail ls) false.
Proof.
  induction 1 as [|l ls [Hp Ht] _ IH]; intros st Hc.
  - cbn [run_lines fold_left trail]. rewrite append_nil_r, <- Hc.
    now destruct st.
  - rewrite run_lines_cons, (step_plain st l Hp Hc), Ht.
    rewrite IH by reflexivity. cbn [queries current_query trail].
    now rewrite !append_assoc.
Qed.

Lemma trail_concat (l : string) (ls : list string) :
  trail (l :: ls) = String.concat " " (map strip (l :: ls)) ++ " ".
Proof.
  revert l. induction ls as [|l' ls IH]; intros l.
  - reflexivity.
  - change (trail (l :: l' :: ls)) with (strip l ++ " " ++ trail (l' :: ls)).
    rewrite IH.
    change (String.concat " " (map strip (l :: l' :: ls)))
      with (strip l ++ " " ++ String.concat " " (map strip (l' :: ls))).
    now rewrite !append_assoc.
Qed.

(** Trimmed non-empty pieces joined by single spaces form a trimmed text. *)
Lemma concat_trimmed (y : string) (ys : list string) :
  Forall (fun y => strip y = y /\ y <> "") (y :: ys) ->
  let t := String.concat " " (y :: ys) in
  lstrip t = t /\ rstrip t = t /\ t <> "".
Proof.
  cbv zeta. revert y. induction ys as [|y' ys IH]; intros y H.
  - inversion_clear H as [|? ? [Hy Hne] _]. cbn [String.concat].
    split; [|split; [|exact Hne]].
    + rewrite <- Hy. apply lstrip_strip.
    + rewrite <- Hy. apply rstrip_strip.
  - inversion_clear H as [|? ? [Hy Hne] H'].
    destruct (IH y' H') as (_ & Hr & Hn).
    change (String.concat " " (y :: y' :: ys))
      with (y ++ " " ++ String.concat " " (y' :: ys)).
    assert (Hl : lstrip y = y) by (rewrite <- Hy; apply lstrip_strip).
    split; [|split].
    + rewrite lstrip_app_keep by (rewrite Hl; exact Hne). now rewrite Hl.
    + rewrite rstrip_app_keep.
      * rewrite rstrip_app_keep by (rewrite Hr; exact Hn). now rewrite Hr.
      * rewrite rstrip_app_keep by (rewrite Hr; exact Hn). discriminate.
    + now apply append_not_nil_l.
Qed.

Lemma strip_trail (l : string) (ls : list string) :
  Forall (fun l => plain l = true) (l :: ls) ->
  strip (trail (l :: ls)) = String.concat " " (map strip (l :: ls)).
Proof.
  intros H. rewrite trail_concat.
  assert (Ht : Forall (fun y => strip y = y /\ y <> "") (map strip (l :: ls))).
  { apply Forall_map. eapply Forall_impl; [|exact H].
    intros a Ha. cbv beta in Ha. split; [apply strip_idem|].
    apply is_empty_false. now destruct (plain_spec a Ha). }
  cbn [map] in *.
  destruct (concat_trimmed _ _ Ht) as (Hl & Hr & _).
  unfold strip at 1. rewrite rstrip_app_blank by reflexivity.
  now rewrite Hr, Hl.
Qed.

(** X5. Joining: consecutive plain lines (not blank, no comment marker), of
    which none but possibly the last ends with [;], make one statement: the
    trimmed lines joined by single spaces.  The terminator on the last line
    is optional. *)
Theorem statement_joined (body : list string) (last : string) :
  Forall (fun l => plain l = true /\ terminated l = false) body ->
  plain last = true ->
  split_lines (body ++ [last]) =
    [String.concat " " (map strip (body ++ [last]))].
Proof.
  intros Hb Hl.
  assert (Hall : Forall (fun l => plain l = true) (body ++ [last])).
  { apply Forall_app. split; [|now constructor].
    eapply Forall_impl; [|exact Hb]. now intros a [Ha _]. }
  assert (Hs : strip (trail (body ++ [last])) =
               String.concat " " (map strip (body ++ [last]))).
  { destruct (body ++ [last])%list as [|x xs] eqn:E.
    - destruct body; discriminate E.
    - now apply strip_trail. }
  assert (Hne : is_empty (strip (trail (body ++ [last]))) = false).
  { rewrite strip_empty, trail_app, has_nonspace_app. cbn [trail].
    rewrite !has_nonspace_app, strip_nonspace.
    destruct (plain_spec last Hl) as (H1 & _). rewrite strip_empty in H1.
    apply negb_false_iff in H1. rewrite H1. cbn. now rewrite orb_true_r. }
  assert (Hcq : (current_query init ++ trail body) ++ strip last ++ " "
                = trail (body ++ [last])).
  { rewrite trail_app. reflexivity. }
  unfold split_lines. rewrite run_lines_app.
  rewrite (run_lines_plain body Hb init eq_refl).
  cbn [run_lines fold_left]. rewrite step_plain by (exact Hl || reflexivity).
  cbn [queries current_query]. rewrite Hcq.
  destruct (terminated last); unfold flush;
    cbn [queries current_query init app].
  - now rewrite Hs.
  - now rewrite Hne, Hs.
Qed.

Lemma statement_joined_witness :
  split_lines (["  SELECT a,"; "b"] ++ ["  FROM t  "]) = ["SELECT a, b FROM t"].
Proof.
  refine (statement_joined ["  SELECT a,"; "b"] "  FROM t  " _ eq_refl).
  repeat constructor.
Defined.

Lemma run_plain_count (ls : list string) :
  Forall (fun l => plain l = true) ls ->
  forall st, in_comment st = false ->
    in_comment (run_lines st ls) = false /\
    List.length (queries (run_lines st ls)) =
      List.length (queries st) + count_terminated ls.
Proof.
  unfold count_terminated.
  induction 1 as [|l ls Hp _ IH]; intros st Hc; [cbn; split; [exact Hc | lia]|].
  rewrite run_lines_cons, (step_plain st l Hp Hc). cbn [filter].
  destruct (terminated l).
  - destruct (IH (mkState (queries st ++
                  [strip (current_query st ++ strip l ++ " ")])%list "" false)
                eq_refl) as [H1 H2].
    split; [exact H1|]. rewrite H2. cbn [queries List.length].
    rewrite length_app. cbn [List.length]. lia.
  - destruct (IH (mkState (queries st) (current_query st ++ strip l ++ " ")
                    false) eq_refl) as [H1 H2].
    split; [exact H1 | exact H2].
Qed.

(** X6. Statement count of a script without comments and blank lines: the
    number of statements is the number of lines ending with [;], plus one
    when the last line does not end with [;]. *)
Theorem plain_statement_count (body : list string) (last : string) :
  Forall (fun l => plain l = true) (body ++ [last]) ->
  List.length (split_lines (body ++ [last])) =
    count_terminated (body ++ [last]) + (if terminated last then 0 else 1).
Proof.
  intros H. apply Forall_app in H as [Hb Hl].
  inversion_clear Hl as [|? ? Hl' _].
  destruct (run_plain_count body Hb init eq_refl) as [Hc Hn].
  unfold split_lines. rewrite run_lines_app. cbn [run_lines fold_left].
  rewrite (step_plain _ last Hl' Hc).
  unfold count_terminated in *. rewrite filter_app, length_app.
  cbn [filter queries init List.length] in *.
  destruct (terminated last) eqn:Ht; unfold flush;
    cbn [queries current_query List.length].
  - cbn. rewrite length_app, Hn. cbn. lia.
  - assert (Hne : is_empty (strip (current_query
                    (run_lines init body) ++ strip last ++ " ")) = false).
    { rewrite strip_empty, !has_nonspace_app, strip_nonspace.
      destruct (plain_spec last Hl') as (H1 & _). rewrite strip_empty in H1.
      apply negb_false_iff in H1. rewrite H1. cbn. now rewrite orb_true_r. }
    rewrite Hne, length_app, Hn. cbn. lia.
Qed.

Lemma plain_statement_count_witness :
  List.length (split_lines (["SELECT 1;"; "SELECT a,"; "b FROM t;"] ++
                            ["SELECT 3"])) = 3.
Proof.
  refine (plain_statement_count ["SELECT 1;"; "SELECT a,"; "b FROM t;"]
            "SELECT 3" _).
  repeat constructor.
Defined.

End SplitterExtra.

(** * More on the batch run *)

Module RunnerExtra.
Import PyStr PyStrFacts Splitter SplitterFacts SplitterExtra Lines Runner
  RunnerFacts Readings.

Section WithStore.

Context {Row Store : Type}.
Variable cursor_execute : Store -> string -> Store * option exc.
Variable cursor_fetchall : Store -> Store * (exc + list Row).
Variable cursor_description : Store -> list string.
Variable write_report : string -> list file_write -> option string.

Local Abbreviation run_query :=
  (run_query cursor_execute cursor_fetchall cursor_description).
Local Abbreviation statement_run :=
  (statement_run cursor_execute cursor_fetchall cursor_description).
Local Abbreviation store_after :=
  (store_after cursor_execute cursor_fetchall cursor_description).
Local Abbreviation raises := (raises cursor_execute cursor_fetchall).
Local Abbreviation blocks :=
  (blocks cursor_execute cursor_fetchall cursor_description).
Local Abbreviation recorded :=
  (recorded cursor_execute cursor_fetchall cursor_description).
Local Abbreviation run_all_queries :=
  (run_all_queries cursor_execute cursor_fetchall cursor_description
     write_report).

(** The events before the loop and after it, for a script that was read. *)
Lemma run_events s0 content output_file verbose :
  events (run_all_queries true (ScriptText content) s0 output_file verbose) =
  let qs := split_queries content in
  let rs := recorded verbose s0 1 qs in
  ([Connect; Say EchoBanner; Say EchoRule60; Say (EchoFound (List.length qs));
    Say EchoBlank] ++
   blocks verbose s0 1 qs ++
   [Say EchoSummaryHeader; Say EchoRule40;
    Say (EchoSuccessful (count_successful rs));
    Say (EchoFailed (count_failed rs)); Say (EchoTotal (List.length qs))] ++
   save_results write_report output_file rs ++ [Close])%list.
Proof.
  rewrite run_all_queries_text. cbv zeta. cbn [events].
  unfold Runner.run_loop.
  rewrite (run_loop_blocks cursor_execute cursor_fetchall cursor_description),
    (run_loop_recorded cursor_execute cursor_fetchall cursor_description).
  cbn [trace store all_results app]. rewrite <- ?app_assoc. reflexivity.
Qed.

Lemma run_loop_store verbose (qs : list string) :
  forall (k : nat) (st : loop_state),
    store (fold_left (run_query verbose) (enumerate k qs) st) =
    fold_left store_after qs (store st).
Proof.
  induction qs as [|q qs IH]; intros k st; cbn [enumerate fold_left];
    [reflexivity|].
  rewrite IH, run_query_frame. cbn [extend store].
  now rewrite statement_run_store.
Qed.

Lemma run_final_store s0 content output_file verbose :
  final_store
    (run_all_queries true (ScriptText content) s0 output_file verbose) =
  fold_left store_after (split_queries content) s0.
Proof.
  rewrite run_all_queries_text. cbv zeta. cbn [final_store].
  unfold Runner.run_loop. now rewrite run_loop_store.
Qed.

(** Only the console part of an iteration depends on [verbose]. *)
Lemma statement_run_results_verbose verbose verbose' s i q :
  all_results (statement_run verbose s i q) =
  all_results (statement_run verbose' s i q).
Proof.
  unfold Runner.statement_run, Runner.run_query, Runner.fetch_results.
  destruct (is_empty (strip q)); [reflexivity|]. cbn.
  destruct (cursor_execute s q) as [? [[?|?]|]]; cbn; try reflexivity.
  destruct (cursor_fetchall _) as [? [[?|?]|[|? ?]]]; reflexivity.
Qed.

Lemma recorded_verbose verbose verbose' (qs : list string) :
  forall s k, recorded verbose s k qs = recorded verbose' s k qs.
Proof.
  induction qs as [|q qs IH]; intros s k; [reflexivity|].
  cbn [Runner.recorded].
  now rewrite IH, (statement_run_results_verbose verbose verbose').
Qed.

Lemma statement_run_events verbose s i q :
  Forall (fun ev => is_statement_event ev = true)
    (trace (statement_run verbose s i q)).
Proof.
  unfold Runner.statement_run, Runner.run_query, Runner.fetch_results.
  destruct (is_empty (strip q)); [constructor|]. cbn.
  destruct (cursor_execute s q) as [? [[?|?]|]]; cbn.
  - destruct verbose; repeat constructor.
  - destruct verbose; repeat constructor.
  - destruct (cursor_fetchall _) as [? [[?|?]|[|? ?]]]; cbn;
      unfold echo_rows; destruct verbose; cbn;
      try destruct (_ <=? _)%nat; repeat constructor.
Qed.

Lemma blocks_events verbose (qs : list string) :
  forall s k,
    Forall (fun ev => is_statement_event ev = true) (blocks verbose s k qs).
Proof.
  induction qs as [|q qs IH]; intros s k; [constructor|].
  cbn [Runner.blocks]. apply Forall_app. split; [|apply IH].
  apply statement_run_events.
Qed.

Lemma written_app (a b : list (@event Row)) :
  written (a ++ b) = (written a ++ written b)%list.
Proof. apply flat_map_app. Qed.

Lemma statement_events_quiet (tr : list (@event Row)) :
  Forall (fun ev => is_statement_event ev = true) tr ->
  written tr = [] /\
  (forall c, fold_left conn_step tr c = c) /\
  fold_left protocol_step tr (Some Open) = Some Open.
Proof.
  induction 1 as [|ev tr Hev _ (IHw & IHc & IHp)]; [repeat split|].
  destruct ev; try discriminate Hev; cbn; repeat split; auto.
Qed.

Lemma submitted_blocks verbose (qs : list string) :
  forall s k,
    submitted (blocks verbose s k qs) =
    filter (fun q => negb (is_empty (strip q))) qs.
Proof.
  induction qs as [|q qs IH]; intros s k; [reflexivity|].
  cbn [Runner.blocks filter]. rewrite submitted_app, IH.
  destruct (is_empty (strip q)) eqn:E; cbn [negb].
  - unfold Runner.statement_run, Runner.run_query. now rewrite E.
  - now rewrite statement_run_submitted.
Qed.

(** X7. The verbosity flag changes the console only: with and without
    [--verbose] the run hands the same statements to the store, leaves the
    same store, records the same results and counters, writes the same
    report file and leaves the connection in the same state. *)
Theorem verbose_only_console (db_exists : bool) (script : script_file)
    (s0 : Store) (output_file : option string) :
  let loud := run_all_queries db_exists script s0 output_file true in
  let quiet := run_all_queries db_exists script s0 output_file false in
  run_summary loud = run_summary quiet /\
  final_store loud = final_store quiet /\
  submitted (events loud) = submitted (events quiet) /\
  written (events loud) = written (events quiet) /\
  conn_after (events loud) = conn_after (events quiet).
Proof.
  cbv zeta. destruct db_exists; [|repeat split].
  destruct script as [|e|content]; try (repeat split).
  - now rewrite !run_summary_recorded, (recorded_verbose true false).
  - now rewrite !run_final_store.
  - now rewrite !run_submits_all.
  - rewrite !run_events. cbv zeta. rewrite !written_app.
    destruct (statement_events_quiet _
                (blocks_events true (split_queries content) s0 1))
      as (-> & _).
    destruct (statement_events_quiet _
                (blocks_events false (split_queries content) s0 1))
      as (-> & _).
    now rewrite (recorded_verbose true false).
  - rewrite !run_events. cbv zeta.
    rewrite !app_assoc, !conn_after_close. reflexivity.
Qed.

Lemma table_rows_blocks verbose (qs : list string) :
  (forall s i q,
     List.length (table_rows (trace (statement_run verbose s i q))) <= 5) ->
  forall s k,
    List.length (table_rows (blocks verbose s k qs)) <= 5 * List.length qs.
Proof.
  intros H. induction qs as [|q qs IH]; intros s k; [cbn; lia|].
  cbn [Runner.blocks List.length]. rewrite table_rows_app, length_app.
  specialize (H s k q). specialize (IH (store_after s q) (S k)). lia.
Qed.

Lemma table_rows_save output_file rs :
  table_rows (@save_results Row write_report output_file rs) = [].
Proof.
  unfold save_results. destruct (output_requested output_file); [|reflexivity].
  cbn. destruct (write_report _ _); reflexivity.
Qed.

Lemma statement_preview verbose s i q :
  List.length (table_rows (trace (statement_run verbose s i q))) <= 5 /\
  (verbose = false -> table_rows (trace (statement_run verbose s i q)) = []).
Proof.
  destruct (is_empty (strip q)) eqn:E.
  - unfold Runner.statement_run, Runner.run_query. rewrite E.
    cbn. split; [lia | reflexivity].
  - rewrite (statement_run_eq cursor_execute cursor_fetchall
               cursor_description verbose s i q E).
    destruct (cursor_execute s q) as [s' [e|]]; cbn [trace].
    + rewrite table_rows_app, table_rows_head. destruct e; cbn.
      all: split; [lia | reflexivity].
    + destruct (cursor_fetchall s') as [s'' [[m|m]|[|r rs]]]; cbn [trace];
        rewrite ?table_rows_app, table_rows_head;
        try (cbn; split; [lia | reflexivity]).
      unfold echo_rows. destruct verbose.
      * split; [|discriminate].
        destruct (Nat.leb_spec (List.length (r :: rs)) 5) as [Hle|Hgt];
          cbn [table_rows flat_map app]; rewrite ?app_nil_r.
        -- exact Hle.
        -- rewrite length_firstn. lia.
      * cbn. split; [lia | reflexivity].
Qed.

(** X8. Bounded preview: whatever the store returns, one statement puts at
    most five rows into the console tables, so a run shows at most five
    rows per statement; without [--verbose] no table is shown at all. *)
Theorem preview_bounded (s0 : Store) (content : string)
    (output_file : option string) (verbose : bool) :
  let out :=
    run_all_queries true (ScriptText content) s0 output_file verbose in
  (forall s i q,
     List.length (table_rows (trace (statement_run verbose s i q))) <= 5) /\
  List.length (table_rows (events out)) <=
    5 * List.length (split_queries content) /\
  (verbose = false -> table_rows (events out) = []).
Proof.
  cbv zeta. split; [intros; apply statement_preview|].
  rewrite run_events. cbv zeta. rewrite !table_rows_app, table_rows_save.
  cbn [table_rows flat_map app]. rewrite !app_nil_r. split.
  - apply table_rows_blocks. intros; apply statement_preview.
  - intros ->. assert (H : forall qs s k,
      table_rows (blocks false s k qs) = []).
    { induction qs as [|q qs IH]; intros s k; [reflexivity|].
      cbn [Runner.blocks]. rewrite table_rows_app, IH.
      now rewrite (proj2 (statement_preview false s k q) eq_refl). }
    apply H.
Qed.


Lemma length_append (a b : string) :
  String.length (a ++ b) = String.length a + String.length b.
Proof. induction a as [|c a IH]; cbn; [reflexivity | now rewrite IH]. Qed.

Lemma length_take (n : nat) (s : string) : String.length (take n s) <= n.
Proof.
  revert s. induction n as [|n IH]; intros [|c s]; cbn; try lia.
  specialize (IH s). lia.
Qed.

Lemma take_all (n : nat) (s : string) : String.length s <= n -> take n s = s.
Proof.
  revert s. induction n as [|n IH]; intros [|c s] H; cbn in *;
    try reflexivity; try lia.
  now rewrite IH by lia.
Qed.

(** The two ways the code shortens a statement (line 516 for the console,
    lines 543-579 for the results) give the same text. *)
Lemma shown_text_truncated (q : string) : shown_text q = truncated q.
Proof.
  unfold shown_text, truncated.
  destruct (Nat.ltb_spec 100 (String.length q)) as [H|H]; [reflexivity|].
  rewrite take_all by exact H. apply SplitterExtra.append_nil_r.
Qed.

Lemma truncated_length (q : string) : String.length (truncated q) <= 103.
Proof.
  unfold truncated.
  destruct (Nat.ltb_spec 100 (String.length q)) as [H|H]; [|lia].
  rewrite length_append. pose proof (length_take 100 q).
  cbn [String.length]. lia.
Qed.

Lemma recorded_queries verbose (qs : list string) :
  Forall nonblank qs ->
  forall s k, map query (recorded verbose s k qs) = map truncated qs.
Proof.
  induction 1 as [|q qs Hq _ IH]; intros s k; [reflexivity|].
  cbn [Runner.recorded map]. rewrite map_app, IH.
  destruct (statement_run_result cursor_execute cursor_fetchall
              cursor_description verbose s k q Hq) as (r & -> & _ & <- & _).
  reflexivity.
Qed.

(** X9. Stored statement text: the results of a run carry, in order, the
    statements of the script, each cut to its first 100 characters plus
    [...] when it is longer and unchanged otherwise; so no stored text has
    more than 103 characters, and it is the text shown on the console in
    verbose mode. *)
Theorem stored_text_bounded (s0 : Store) (content : string)
    (output_file : option string) (verbose : bool) :
  exists sm,
    run_summary
      (run_all_queries true (ScriptText content) s0 output_file verbose)
      = Some sm /\
    map query (sum_results sm) = map truncated (split_queries content) /\
    Forall (fun r => String.length (query r) <= 103) (sum_results sm) /\
    (forall q, String.length q <= 100 -> truncated q = q) /\
    (forall q, 100 < String.length q ->
       truncated q = take 100 q ++ "..." /\
       String.length (truncated q) = 103) /\
    (forall q, shown_text q = truncated q).
Proof.
  rewrite run_summary_recorded. cbv zeta. eexists. split; [reflexivity|].
  cbn [sum_results].
  pose proof (recorded_queries verbose _ (split_queries_nonblank content) s0 1)
    as Hq.
  split; [exact Hq|]. split; [|split; [|split]].
  - apply Forall_forall. intros r Hr.
    apply (in_map query) in Hr. rewrite Hq in Hr.
    apply in_map_iff in Hr as (q & <- & _). apply truncated_length.
  - intros q H. unfold truncated.
    destruct (Nat.ltb_spec 100 (String.length q)); [lia | reflexivity].
  - intros q H. unfold truncated.
    destruct (Nat.ltb_spec 100 (String.length q)); [|lia].
    split; [reflexivity|]. rewrite length_append.
    assert (Ht : forall n s, n <= String.length s ->
                 String.length (take n s) = n).
    { induction n as [|n IH]; intros [|c s] Hs; cbn in *; try lia.
      now rewrite IH by lia. }
    rewrite Ht by lia. reflexivity.
  - apply shown_text_truncated.
Qed.

















(** X13. A script of blank lines and [--] lines only: the splitter
    produces no statement, nothing is handed to the store, which stays as
    it was, and the console shows the count 0 and the summary 0 / 0 / 0. *)
Theorem comment_only_script (s0 : Store) (content : string)
    (output_file : option string) (verbose : bool) :
  Forall (fun l => skipped l = true) (split_newline content) ->
  let out :=
    run_all_queries true (ScriptText content) s0 output_file verbose in
  split_queries content = [] /\
  run_summary out = Some (mkSummary [] [] 0 0) /\
  final_store out = s0 /\
  submitted (events out) = [] /\
  console (events out) =
    ([EchoBanner; EchoRule60; EchoFound 0; EchoBlank; EchoSummaryHeader;
      EchoRule40; EchoSuccessful 0; EchoFailed 0; EchoTotal 0] ++
     console (save_results write_report output_file []))%list.
Proof.
  intros H. cbv zeta.
  assert (Hs : split_queries content = []).
  { unfold split_queries, split_lines. now rewrite run_lines_skipped. }
  split; [exact Hs|]. split; [|split; [|split]].
  - now rewrite run_summary_recorded, Hs.
  - now rewrite run_final_store, Hs.
  - now rewrite run_submits_all.
  - rewrite run_events, Hs. cbv zeta. cbn [Runner.blocks Runner.recorded app].
    unfold console. cbn [flat_map app]. rewrite flat_map_app.
    cbn [flat_map app]. now rewrite app_nil_r.
Qed.

End WithStore.

Lemma preview_bounded_witness :
  table_rows
    (events (ToyStore.run (ScriptText "SELECT n FROM seven;") None false)) = [].
Proof.
  exact (proj2 (proj2 (preview_bounded ToyStore.cursor_execute
           ToyStore.cursor_fetchall ToyStore.cursor_description
           ToyStore.write_report [] "SELECT n FROM seven;" None false))
           eq_refl).
Defined.

Lemma stored_text_bounded_witness :
  truncated ToyStore.long_statement = take 100 ToyStore.long_statement ++ "..."
  /\ truncated "SELECT 1;" = "SELECT 1;".
Proof.
  destruct (stored_text_bounded ToyStore.cursor_execute
              ToyStore.cursor_fetchall ToyStore.cursor_description
              ToyStore.write_report [] "SELECT 1;" None false)
    as (_ & _ & _ & _ & Hshort & Hlong & _).
  split.
  - apply Hlong. vm_compute. lia.
  - apply Hshort. vm_compute. lia.
Defined.



Lemma comment_only_script_witness :
  run_summary
    (ToyStore.run (ScriptText ("-- nothing here;" ++ nl ++ "   " ++ nl))
       None true) = Some (mkSummary [] [] 0 0).
Proof.
  refine (proj1 (proj2 (comment_only_script ToyStore.cursor_execute
            ToyStore.cursor_fetchall ToyStore.cursor_description
            ToyStore.write_report []
            ("-- nothing here;" ++ nl ++ "   " ++ nl) None true _))).
  vm_compute. repeat constructor.
Defined.

End RunnerExtra.

(** * The other commands *)

Module StatusFacts.
Import PyStr Runner Status.

Section WithStore.

Context {Row Store : Type}.
Variable cursor_execute : Store -> string -> Store * option exc.
Variable cursor_fetchone : Store -> Store * (exc + option Row).
Variable first_count : Row -> option Z.

Local Abbreviation count_table :=
  (count_table cursor_execute cursor_fetchone first_count).
Local Abbreviation count_tables :=
  (count_tables cursor_execute cursor_fetchone first_count).
Local Abbreviation system_status :=
  (system_status cursor_execute cursor_fetchone first_count).

(** What one iteration adds: one query, one line naming the table, and the
    connection stays open. *)
Lemma count_table_block (s : Store) (tr : list event) (table : string) :
  exists s' blk,
    count_table (s, tr) table = (s', (tr ++ blk)%list) /\
    executed blk = [count_query table] /\
    table_lines blk = [table] /\
    (exists l, console blk = [l]) /\
    fold_left protocol_step blk (Some Open) = Some Open.
Proof.
  unfold Status.count_table.
  destruct (cursor_execute s (count_query table)) as [s1 [e|]].
  - eexists _, _. split; [reflexivity|]. cbn. eauto.
  - destruct (cursor_fetchone s1) as [s2 [e|[row|]]].
    + eexists _, _. split; [reflexivity|]. cbn. eauto.
    + destruct (first_count row); eexists _, _; (split; [reflexivity|]);
        cbn; eauto.
    + eexists _, _. split; [reflexivity|]. cbn. eauto.
Qed.

Lemma count_tables_blocks (ts : list string) :
  forall (s : Store) (tr : list event),
    exists s' blk,
      count_tables (s, tr) ts = (s', (tr ++ blk)%list) /\
      executed blk = map count_query ts /\
      table_lines blk = ts /\
      List.length (console blk) = List.length ts /\
      fold_left protocol_step blk (Some Open) = Some Open.
Proof.
  induction ts as [|t ts IH]; intros s tr.
  - exists s, []. cbn. rewrite app_nil_r. repeat split.
  - destruct (count_table_block s tr t)
      as (s1 & b1 & E1 & Hx & Ht & [l Hl] & Hp).
    destruct (IH s1 (tr ++ b1)%list) as (s2 & b2 & E2 & Hx2 & Ht2 & Hl2 & Hp2).
    exists s2, (b1 ++ b2)%list.
    unfold Status.count_tables in *. cbn [fold_left]. rewrite E1, E2.
    split; [now rewrite app_assoc|].
    unfold executed, table_lines, console in *.
    rewrite !flat_map_app, Hx, Ht, Hx2, Ht2, Hl, length_app, Hl2.
    rewrite fold_left_app, Hp, Hp2. repeat split.
Qed.

(** X14. Per-table isolation in [status]: when the database is there, the
    nine [COUNT] queries are each executed once, in the order of the list,
    and the console has exactly one line per table, in that order, a count
    or [Error], whatever the store answers: a table that fails does not
    stop the others. *)
Theorem status_table_isolation (db_size : nat) (s0 : Store) :
  let tr := snd (system_status true db_size true s0) in
  executed tr = map count_query tables /\
  table_lines tr = tables /\
  List.length (executed tr) = 9.
Proof.
  cbv zeta. unfold Status.system_status.
  destruct (count_tables_blocks tables s0
              ([Say StatusTitle; Say Rule50] ++
               [Say DbFound; Say (DbSize db_size)] ++
               [Connect; Say ContentsHeader])%list)
    as (s' & blk & E & Hx & Ht & _ & _).
  unfold Status.count_tables in *. rewrite <- app_assoc. rewrite E.
  cbn [snd]. unfold executed, table_lines in *.
  rewrite !flat_map_app, Hx, Ht. cbn [flat_map app].
  rewrite !app_nil_r. repeat split.
Qed.


End WithStore.


Example status_toy_lines :
  table_lines (snd (system_status ToyStatus.cursor_execute
                      ToyStatus.cursor_fetchone ToyStatus.first_count
                      true 4096 true None)) = tables /\
  In (Say (TableError "Payroll"))
    (snd (system_status ToyStatus.cursor_execute
            ToyStatus.cursor_fetchone ToyStatus.first_count
            true 4096 true None)).
Proof. split; [reflexivity|]. vm_compute. tauto. Qed.

End StatusFacts.

Module ListEmployeesFacts.
Import PyStr ListEmployees.

Lemma placeholders_app (a b : string) :
  placeholders (a ++ b) = placeholders a + placeholders b.
Proof.
  induction a as [|c a IH]; cbn [append placeholders]; [reflexivity|].
  rewrite IH. lia.
Qed.

(** X16. The query of [employee list]: for every department filter and
    limit, the statement has exactly as many [?] placeholders as
    parameters are passed with it; the limit is the last parameter; and the
    text of the statement is one of two fixed texts, the department being
    bound as the pattern [%department%] and never spliced into the SQL.  An
    empty department string filters nothing. *)
Theorem list_query_placeholders (department : option string) (limit : Z) :
  let query := fst (list_employees_query department limit) in
  let params := snd (list_employees_query department limit) in
  placeholders query = List.length params /\
  last params (PInt 0) = PInt limit /\
  ((department = None \/ department = Some "") /\
   query = base_query ++ order_clause /\ params = [PInt limit]
   \/
   exists d, department = Some d /\ d <> "" /\
     query = base_query ++ like_clause ++ order_clause /\
     params = [PText ("%" ++ d ++ "%"); PInt limit]).
Proof.
  cbv zeta. unfold list_employees_query.
  assert (Hb : placeholders base_query = 0) by (vm_compute; reflexivity).
  destruct department as [[|c d]|]; cbn [is_empty fst snd app].
  - rewrite placeholders_app, Hb. repeat split. left. repeat split. now right.
  - rewrite !placeholders_app, Hb. split; [reflexivity|].
    split; [reflexivity|]. right. exists (String c d).
    split; [reflexivity|]. split; [discriminate|].
    split; [apply SplitterExtra.append_assoc | reflexivity].
  - rewrite placeholders_app, Hb. repeat split. left. repeat split. now left.
Qed.

Example list_query_filtered :
  snd (list_employees_query (Some "Sales") 50)
  = [PText "%Sales%"; PInt 50].
Proof. reflexivity. Qed.

End ListEmployeesFacts.

Module InitDbFacts.
Import PyStr InitDb.

Section WithStore.

Context {Store : Type}.
Variable fresh : Store.
Variable cursor_executescript : Store -> string -> Store * option string.

Local Abbreviation init_database :=
  (init_database fresh cursor_executescript).



End WithStore.


Example init_schema_missing :
  init_database [] ToyStatus.cursor_executescript true FileMissing
    (FileText "INSERT INTO t VALUES (1);")
  = (false, [],
     [RemoveDb; Print Removed; Connect; Print Creating; Print SchemaMissing]).
Proof. reflexivity. Qed.

End InitDbFacts.
